(** * BI Event Mapper: the mapping store, the locator builder, the selection
      session and the locator resolver

    A shallow embedding of

    - [packages/storage/lib/impl/bi-events-storage.ts] (the persisted
      aggregate and its four read-modify-write operations), and
    - the side panel's injected routines [startElementSelection] and
      [highlightElement] from [pages/popup/src/Popup.tsx],

    followed by the properties of the specification that concern them.

    Conventions.  A JavaScript string is a [string] of 8-bit characters; the
    case conversion and the white space of [trim] and of the regular
    expression [\s] are the ASCII ones.  [Date.now()], hit testing, and the
    browser's selector and XPath engines are inputs of the model.  A number
    that the code computes with (the sides of a bounding rectangle) is an
    IEEE 754 binary64 [float], as in JavaScript. *)

From Stdlib Require Import String Ascii List Bool Arith ZArith Lia.
From Stdlib Require Import DecimalString Floats.
Import ListNotations.

Set Warnings "-register-all".

Open Scope list_scope.
Open Scope string_scope.

(* ================================================================= *)
(** ** JavaScript strings *)

Module JsString.

(** The double quote, which the templates of the source embed. *)
Definition dquote : string := String (ascii_of_nat 34) "".

(** Truthiness of a string: every string but the empty one. *)
Definition truthy (s : string) : bool :=
  match s with
  | EmptyString => false
  | String _ _ => true
  end.

(** Truthiness of [string | null | undefined]. *)
Definition truthy_opt (o : option string) : bool :=
  match o with
  | Some s => truthy s
  | None => false
  end.

(** [a || undefined] of the source: a falsy string becomes absent. *)
Definition or_undefined (s : string) : option string :=
  if truthy s then Some s else None.

Definition is_upper (c : ascii) : bool :=
  let n := nat_of_ascii c in ((65 <=? n) && (n <=? 90))%nat.

Definition lower_char (c : ascii) : ascii :=
  if is_upper c then ascii_of_nat (nat_of_ascii c + 32) else c.

(** [s.toLowerCase()] *)
Fixpoint toLowerCase (s : string) : string :=
  match s with
  | EmptyString => EmptyString
  | String c r => String (lower_char c) (toLowerCase r)
  end.

(** The characters [\s] matches and [trim] strips. *)
Definition is_space (c : ascii) : bool :=
  let n := nat_of_ascii c in
  ((n =? 32) || ((9 <=? n) && (n <=? 13)))%nat.

Fixpoint trimStart (s : string) : string :=
  match s with
  | EmptyString => EmptyString
  | String c r => if is_space c then trimStart r else s
  end.

Fixpoint trimEnd (s : string) : string :=
  match s with
  | EmptyString => EmptyString
  | String c r =>
      match trimEnd r with
      | EmptyString => if is_space c then EmptyString else String c EmptyString
      | r' => String c r'
      end
  end.

(** [s.trim()] *)
Definition trim (s : string) : string := trimEnd (trimStart s).

(** [s.split(sep)] for a one-character separator. *)
Fixpoint split (sep : ascii) (s : string) : list string :=
  match s with
  | EmptyString => [EmptyString]
  | String c r =>
      if Ascii.eqb c sep then EmptyString :: split sep r
      else match split sep r with
           | [] => [String c EmptyString]
           | w :: ws => String c w :: ws
           end
  end.

(** [s.split(/\s+/)]: the pieces between maximal runs of white space.
    [prev] says that the character before [s] was white space. *)
Fixpoint split_ws_from (prev : bool) (s : string) : list string :=
  match s with
  | EmptyString => [EmptyString]
  | String c r =>
      if is_space c then
        if prev then split_ws_from true r
        else EmptyString :: split_ws_from true r
      else match split_ws_from false r with
           | [] => [String c EmptyString]
           | w :: ws => String c w :: ws
           end
  end.

Definition split_ws (s : string) : list string := split_ws_from false s.

(** [l.join(sep)] *)
Definition join (sep : string) (l : list string) : string :=
  String.concat sep l.

(** [s.slice(0, n)] *)
Definition slice0 (n : nat) (s : string) : string := substring 0 n s.

(** [s.includes(p)] *)
Fixpoint includes (p s : string) : bool :=
  prefix p s ||
  match s with
  | EmptyString => false
  | String _ r => includes p r
  end.

(** [`${n}`] for a non-negative integer. *)
Definition of_nat (n : nat) : string :=
  NilEmpty.string_of_uint (Nat.to_uint n).

Definition space : ascii := ascii_of_nat 32.

(** The character [c] does not occur in [s]. *)
Fixpoint free_of (c : ascii) (s : string) : bool :=
  match s with
  | EmptyString => true
  | String a r => negb (Ascii.eqb a c) && free_of c r
  end.

End JsString.

(* ================================================================= *)
(** ** The mapping store: [bi-events-storage.ts] *)

Module Store.

Record BIEvent := {
  evid : string;
  description : string;
  trigger : string;
  staticProperties : option (list (string * string))
}.

(** An entry of [dataHooksPath]. *)
Record DataHookEntry := {
  hookTagName : string;
  hookValue : string;
  level : nat
}.

(** The interface declares the first seven properties.  The objects the
    side panel builds, stores and reads back carry [fullPath] and
    [dataHooksPath] as well. *)
Record ElementSelector := {
  selector : string;
  xpath : string;
  tagName : string;
  className : option string;
  id : option string;
  dataHook : option string;
  text : option string;
  fullPath : option string;
  dataHooksPath : option (list DataHookEntry)
}.

Record EventMapping := {
  eventId : string;
  element : ElementSelector;
  url : string;
  timestamp : Z
}.

Record BIEventsState := {
  events : list BIEvent;
  mappings : list EventMapping;
  selectedEventId : option string;
  isSelecting : bool
}.

Definition mkEvent (e t d cat ty : string) : BIEvent :=
  {| evid := e; description := d; trigger := t;
     staticProperties :=
       Some [("event_category", cat); ("element_type", ty)] |}.

Definition defaultEvents : list BIEvent :=
  [ mkEvent "button_click" "click"
      "Track button clicks and CTA interactions" "user_action" "button";
    mkEvent "form_submit" "submit"
      "Track form submissions and conversions" "conversion" "form";
    mkEvent "link_click" "click"
      "Track internal and external link clicks" "user_action" "link";
    mkEvent "page_scroll" "scroll"
      "Track user scroll behavior and engagement" "engagement" "window";
    mkEvent "video_play" "play"
      "Track video player interactions" "engagement" "video";
    mkEvent "file_download" "click"
      "Track file downloads and document access" "conversion"
      "download_link";
    mkEvent "search_query" "submit"
      "Track internal search usage" "user_action" "search_form";
    mkEvent "modal_open" "click"
      "Track modal and popup interactions" "engagement" "modal_trigger" ].

(** The value [createStorage] is given for a first access. *)
Definition defaultState : BIEventsState :=
  {| events := defaultEvents;
     mappings := [];
     selectedEventId := None;
     isSelecting := false |}.

(** [eventId !== null] *)
Definition not_null {A} (o : option A) : bool :=
  match o with Some _ => true | None => false end.

(** Each operation is the updater it hands to [storage.set], a function
    from the current aggregate to the next one. *)

Definition selectEvent (ev : option string) (s : BIEventsState)
  : BIEventsState :=
  {| events := events s;
     mappings := mappings s;
     selectedEventId := ev;
     isSelecting := not_null ev |}.

(** The predicate of [find] in [addMapping]. *)
Definition same_key (ev : string) (el : ElementSelector) (u : string)
    (m : EventMapping) : bool :=
  String.eqb (eventId m) ev &&
  String.eqb (url m) u &&
  String.eqb (selector (element m)) (selector el) &&
  String.eqb (xpath (element m)) (xpath el).

(** Identical event id, url, primary selector and xpath. *)
Definition identical_key (ev : string) (el : ElementSelector) (u : string)
    (m : EventMapping) : Prop :=
  eventId m = ev /\ url m = u /\
  selector (element m) = selector el /\
  xpath (element m) = xpath el.

(** [now] is the value of [Date.now()] at the call. *)
Definition addMapping (now : Z) (ev : string) (el : ElementSelector)
    (u : string) (s : BIEventsState) : BIEventsState :=
  match find (same_key ev el u) (mappings s) with
  | Some _ =>
      {| events := events s;
         mappings := mappings s;
         selectedEventId := None;
         isSelecting := false |}
  | None =>
      {| events := events s;
         mappings :=
           (mappings s ++
            [ {| eventId := ev; element := el; url := u;
                 timestamp := now |} ])%list;
         selectedEventId := None;
         isSelecting := false |}
  end.

(** The predicate of [filter] in [removeMapping], before its negation. *)
Definition same_event_url (ev u : string) (m : EventMapping) : bool :=
  String.eqb (eventId m) ev && String.eqb (url m) u.

Definition removeMapping (ev u : string) (s : BIEventsState)
  : BIEventsState :=
  {| events := events s;
     mappings :=
       filter (fun m => negb (same_event_url ev u m)) (mappings s);
     selectedEventId := selectedEventId s;
     isSelecting := isSelecting s |}.

Definition cancelSelection (s : BIEventsState) : BIEventsState :=
  {| events := events s;
     mappings := mappings s;
     selectedEventId := None;
     isSelecting := false |}.

(** [handleRemoveMapping] of the side panel calls
    [biEventsStorage.removeMapping(eventId, currentUrl, elementSelector)].
    The function it reaches declares two parameters, so the third
    argument of the call is evaluated and dropped. *)
Definition handleRemoveMapping (currentUrl ev : string)
    (elementSelector : option string) (s : BIEventsState)
  : BIEventsState :=
  let _dropped := elementSelector in
  removeMapping ev currentUrl s.

(** What the specification says of a removal that is given a primary
    selector: a record goes when its event, its url and its primary
    selector all match. *)
Definition removeMapping_spec (ev u : string) (sel : option string)
    (s : BIEventsState) : BIEventsState :=
  let doomed m :=
    same_event_url ev u m &&
    match sel with
    | Some p => String.eqb (selector (element m)) p
    | None => true
    end in
  {| events := events s;
     mappings := filter (fun m => negb (doomed m)) (mappings s);
     selectedEventId := selectedEventId s;
     isSelecting := isSelecting s |}.

(** The operations a client can invoke, and the states they reach. *)
Inductive Op :=
| OpSelectEvent (ev : option string)
| OpAddMapping (now : Z) (ev : string) (el : ElementSelector) (u : string)
| OpRemoveMapping (ev u : string)
| OpCancelSelection.

Definition apply (o : Op) (s : BIEventsState) : BIEventsState :=
  match o with
  | OpSelectEvent ev => selectEvent ev s
  | OpAddMapping now ev el u => addMapping now ev el u s
  | OpRemoveMapping ev u => removeMapping ev u s
  | OpCancelSelection => cancelSelection s
  end.

Inductive reachable : BIEventsState -> Prop :=
| reach_default : reachable defaultState
| reach_step o s : reachable s -> reachable (apply o s).

(** The invariant of the selection state. *)
Definition selection_inv (s : BIEventsState) : Prop :=
  isSelecting s = not_null (selectedEventId s).

(** How many stored records carry the key of [addMapping]. *)
Definition count_key (ev : string) (el : ElementSelector) (u : string)
    (s : BIEventsState) : nat :=
  List.length (filter (same_key ev el u) (mappings s)).

End Store.

(* ================================================================= *)
(** ** The page: a tree of nodes, and elements as positions in it *)

Module Dom.

Record DOMRect := {
  top : float;
  left : float;
  width : float;
  height : float
}.

(** An error that a routine throws. *)
Inductive JsError := TypeError (message : string).

(** [el.className]: a string on an HTML element, an [SVGAnimatedString]
    object on an SVG element. *)
Inductive ClassName :=
| ClassString (value : string)
| SVGAnimatedString (baseVal : string).

(** [className.toString()]: the string itself, and for the object what
    [Object.prototype.toString] gives. *)
Definition className_toString (c : ClassName) : string :=
  match c with
  | ClassString value => value
  | SVGAnimatedString _ => "[object SVGAnimatedString]"
  end.

(** What the routines read off an element: [tagName], [id], [className],
    [getAttribute('data-hook')] and [getBoundingClientRect()]. *)
Record Attrs := {
  tagName : string;
  id : string;
  className : ClassName;
  dataHook : option string;
  rect : DOMRect
}.

Inductive Node :=
| Text (data : string)
| Elem (a : Attrs) (childNodes : list Node).

(** An element is named by its position: the index among its parent's
    child nodes, then the position of the parent.  The empty position is
    [document.documentElement]. *)
Definition Element := list nat.

Definition same_element (a b : Element) : bool :=
  if list_eq_dec Nat.eq_dec a b then true else false.

(** [el.parentElement] *)
Definition parentElement (el : Element) : option Element :=
  match el with
  | [] => None
  | _ :: p => Some p
  end.

Fixpoint node_at (root : Node) (el : Element) : option Node :=
  match el with
  | [] => Some root
  | i :: p =>
      match node_at root p with
      | Some (Elem _ kids) => nth_error kids i
      | _ => None
      end
  end.

Definition no_rect : DOMRect :=
  {| top := 0; left := 0; width := 0; height := 0 |}.

Definition no_attrs : Attrs :=
  {| tagName := ""; id := ""; className := ClassString ""; dataHook := None;
     rect := no_rect |}.

Definition attrs_of (root : Node) (el : Element) : Attrs :=
  match node_at root el with
  | Some (Elem a _) => a
  | _ => no_attrs
  end.

Definition childNodes_of (root : Node) (el : Element) : list Node :=
  match node_at root el with
  | Some (Elem _ kids) => kids
  | _ => []
  end.

Fixpoint textContent (n : Node) : string :=
  match n with
  | Text d => d
  | Elem _ kids =>
      (fix all (l : list Node) : string :=
         match l with
         | [] => EmptyString
         | k :: r => textContent k ++ all r
         end) kids
  end.

Definition textContent_of (root : Node) (el : Element) : string :=
  match node_at root el with
  | Some n => textContent n
  | None => EmptyString
  end.

Definition is_body_tag (n : Node) : bool :=
  match n with
  | Elem a _ =>
      String.eqb (tagName a) "BODY" || String.eqb (tagName a) "FRAMESET"
  | Text _ => false
  end.

Fixpoint index_where {A} (f : A -> bool) (l : list A) : option nat :=
  match l with
  | [] => None
  | x :: r => if f x then Some 0 else option_map S (index_where f r)
  end.

(** [document.body]: the first [body] or [frameset] child of the root
    element, or null. *)
Definition body (root : Node) : option Element :=
  match root with
  | Elem _ kids => option_map (fun i => [i]) (index_where is_body_tag kids)
  | Text _ => None
  end.

(** [current !== document.body] is the negation of this. *)
Definition is_body (root : Node) (el : Element) : bool :=
  match body root with
  | Some b => same_element el b
  | None => false
  end.

(** The page a routine is injected into. *)
Record Page := {
  root : Node;
  elementFromPoint : float -> float -> option Element;
  href : string
}.

End Dom.

(* ================================================================= *)
(** ** The locator builder: [getElementSelector] *)

Module Builder.
Import JsString Dom.

(** The inner [while (sibling)] of [getXPath]: [i] preceding child nodes
    remain to be visited, nearest first; text nodes are not element
    siblings. *)
Fixpoint sibling_loop (kids : list Node) (tag : string) (i index : nat)
  : nat :=
  match i with
  | 0 => index
  | S j =>
      match nth_error kids j with
      | Some (Elem a _) =>
          sibling_loop kids tag j
            (if String.eqb (tagName a) tag then S index else index)
      | _ => sibling_loop kids tag j index
      end
  end.

(** The outer [while (current && current !== document.documentElement)]. *)
Fixpoint xpath_loop (root : Node) (current : Element) (path : string)
  : string :=
  match current with
  | [] => path
  | i :: parent =>
      let tag := tagName (attrs_of root current) in
      let index := sibling_loop (childNodes_of root parent) tag i 1 in
      xpath_loop root parent
        ("/" ++ toLowerCase tag ++ "[" ++ of_nat index ++ "]" ++ path)
  end.

Definition getXPath (root : Node) (el : Element) : string :=
  let elid := id (attrs_of root el) in
  if truthy elid then "//*[@id=" ++ dquote ++ elid ++ dquote ++ "]"
  else "/html" ++ xpath_loop root el "".

(** The collecting loop of [getFullPathWithDataHooks]; [unshift] is a
    cons. *)
Fixpoint collect_elements (current : Element) (elements : list Element)
  : list Element :=
  match current with
  | [] => elements
  | _ :: parent => collect_elements parent (current :: elements)
  end.

Definition pathPart (root : Node) (elem : Element) : string :=
  let a := attrs_of root elem in
  let tag := toLowerCase (tagName a) in
  if truthy (id a) then tag ++ "#" ++ id a
  else if truthy_opt (dataHook a) then
    tag ++ "[data-hook=" ++ dquote ++
      match dataHook a with Some h => h | None => "" end ++ dquote ++ "]"
  else if truthy (trim (className_toString (className a))) then
    tag ++ "." ++
      join "." (firstn 2 (split_ws (trim (className_toString (className a)))))
  else tag.

Definition getFullPathWithDataHooks (root : Node) (el : Element) : string :=
  let elements := [] :: collect_elements el [] in
  join " > " (map (pathPart root) elements).

Fixpoint dataHooks_loop (root : Node) (current : Element) (level : nat)
    (dataHooks : list Store.DataHookEntry) : list Store.DataHookEntry :=
  match current with
  | [] => dataHooks
  | _ :: parent =>
      let a := attrs_of root current in
      let dataHooks' :=
        match dataHook a with
        | Some h =>
            if truthy h then
              {| Store.hookTagName := toLowerCase (tagName a);
                 Store.hookValue := h;
                 Store.level := level |} :: dataHooks
            else dataHooks
        | None => dataHooks
        end in
      dataHooks_loop root parent (S level) dataHooks'
  end.

Definition getAllDataHooksInPath (root : Node) (el : Element)
  : list Store.DataHookEntry :=
  dataHooks_loop root el 0 [].

(** The primary selector, [selector] in the source. *)
Definition primarySelector (a : Attrs) : string :=
  let tag := toLowerCase (tagName a) in
  let cls := trim (className_toString (className a)) in
  if truthy (id a) then tag ++ "#" ++ id a
  else if truthy_opt (dataHook a) then
    tag ++ "[data-hook=" ++ dquote ++
      match dataHook a with Some h => h | None => "" end ++ dquote ++ "]"
  else if truthy cls then tag ++ "." ++ join "." (split space cls)
  else tag.

Definition getElementSelector (root : Node) (element : Element)
  : Store.ElementSelector :=
  let a := attrs_of root element in
  let cls := trim (className_toString (className a)) in
  let txt := slice0 50 (trim (textContent_of root element)) in
  {| Store.selector := primarySelector a;
     Store.fullPath := Some (getFullPathWithDataHooks root element);
     Store.dataHooksPath := Some (getAllDataHooksInPath root element);
     Store.xpath := getXPath root element;
     Store.tagName := toLowerCase (tagName a);
     Store.className := or_undefined cls;
     Store.id := or_undefined (id a);
     Store.dataHook :=
       match dataHook a with
       | Some h => or_undefined h
       | None => None
       end;
     Store.text := or_undefined txt |}.

(** *** The primary selector as the specification words it *)

Definition primarySelector_spec (a : Attrs) : string :=
  let tag := toLowerCase (tagName a) in
  let cls := trim (className_toString (className a)) in
  if truthy (id a) then tag ++ "#" ++ id a
  else if truthy_opt (dataHook a) then
    tag ++ "[data-hook=" ++ dquote ++
      match dataHook a with Some h => h | None => "" end ++ dquote ++ "]"
  else if truthy cls then
    tag ++ "." ++ join "." (firstn 2 (split space cls))
  else tag.

(** The class tokens a selector [tag.c1.c2...] of an element without id
    and data attribute holds: the pieces after the first dot. *)
Definition class_tokens (sel : string) : list string :=
  tl (split (ascii_of_nat 46) sel).

(** How many class tokens the code puts into the selector of an element
    without id and data attribute. *)
Definition class_count (a : Attrs) : nat :=
  List.length (split space (trim (className_toString (className a)))).

(** *** The XPath as the specification words it *)

(** The element siblings before child [i] that have the tag [tag]. *)
Definition same_tag_before (kids : list Node) (tag : string) (i : nat)
  : nat :=
  List.length
    (filter (fun n => match n with
                      | Elem a _ => String.eqb (tagName a) tag
                      | Text _ => false
                      end)
            (firstn i kids)).

(** One step [/tag[k]] of the absolute path, for an element below the
    root. *)
Definition xpath_step (root : Node) (el : Element) : string :=
  match el with
  | [] => EmptyString
  | i :: parent =>
      let tag := tagName (attrs_of root el) in
      "/" ++ toLowerCase tag ++ "[" ++
        of_nat (1 + same_tag_before (childNodes_of root parent) tag i) ++
        "]"
  end.

(** The element and its ancestors below the root element, outermost
    first. *)
Fixpoint chain_from_root (el : Element) : list Element :=
  match el with
  | [] => []
  | _ :: parent => (chain_from_root parent ++ [el])%list
  end.

End Builder.

(* ================================================================= *)
(** ** The selection session: [startElementSelection] *)

Module Session.
Import JsString Dom.

(** The two messages an in-page session sends. *)
Inductive Message :=
| ELEMENT_SELECTED (eventId : string) (element : Store.ElementSelector)
    (url : string)
| SELECTION_CANCELLED.

Inductive Listener := OnMouseMove | OnClickCapture | OnKeyDown.

(** What a handler does to the outside, in the order it does it.  A
    handler that throws ends there: the error is reported as uncaught
    and nothing after it is done. *)
Inductive Effect :=
| PreventDefault
| StopPropagation
| SendMessage (m : Message)
| RemoveNode (el : Element)
| AppendHighlight (el : Element) (r : DOMRect)
| SetBanner (parentMode : bool)
| RemoveListener (l : Listener)
| ResetCursor
| Uncaught (e : JsError).

(** The variables the closures of one session share, the two globals on
    [window], and the listeners the session has on [document]. *)
Record State := {
  eventId : string;
  overlay : Element;
  banner : Element;
  isSelecting : bool;
  currentHighlight : option Element;
  selectorActive : bool;
  cleanupRegistered : bool;
  listeners : list Listener
}.

Record MouseEvent := {
  clientX : float;
  clientY : float;
  ctrlKey : bool;
  metaKey : bool
}.

(** The state [startElementSelection] leaves when it returns after
    registering its listeners. *)
Definition armed (ev : string) (ov bn : Element) : State :=
  {| eventId := ev; overlay := ov; banner := bn;
     isSelecting := true; currentHighlight := None;
     selectorActive := true; cleanupRegistered := true;
     listeners := [OnMouseMove; OnClickCapture; OnKeyDown] |}.

(** [current.hasAttribute('data-hook')] *)
Definition hasDataHook (a : Attrs) : bool :=
  match dataHook a with Some _ => true | None => false end.

(** The class names of a meaningful container. *)
Definition container_name (className : string) : bool :=
  truthy className &&
  (includes "Card__" className ||
   includes "Container__" className ||
   includes "Wrapper__" className ||
   includes "__card" className ||
   includes "__wrapper" className ||
   includes "__container" className).

Definition areaDiff (originalRect currentRect : DOMRect) : float :=
  ((width currentRect * height currentRect) /
   (width originalRect * height originalRect))%float.

(** [areaDiff > 2] *)
Definition significantly_larger (originalRect currentRect : DOMRect)
  : bool :=
  (2 <? areaDiff originalRect currentRect)%float.

(** What [className.includes] throws on an object without that method. *)
Definition includes_is_not_a_function : JsError :=
  TypeError "className.includes is not a function".

(** The [while (current && current !== document.body)] of
    [getTargetElement], entered with a non-null [current].  The class
    name of an ancestor without the data attribute is read and, being a
    non-empty string or an object, asked [includes]: a string answers, an
    [SVGAnimatedString] has no such method and the call throws. *)
Fixpoint parent_walk (root : Node) (element current bestCandidate : Element)
  : JsError + Element :=
  if is_body root current then inr bestCandidate
  else
    let a := attrs_of root current in
    if hasDataHook a then inr current
    else
      match className a with
      | SVGAnimatedString _ => inl includes_is_not_a_function
      | ClassString className =>
          if container_name className then inr current
          else
            let bestCandidate' :=
              if significantly_larger (rect (attrs_of root element)) (rect a)
              then current else bestCandidate in
            match current with
            | [] => inr bestCandidate'
            | _ :: parent => parent_walk root element parent bestCandidate'
            end
      end.

Definition meaningful_parent (root : Node) (element : Element)
  : JsError + Element :=
  match parentElement element with
  | None => inr element
  | Some current => parent_walk root element current element
  end.

Definition is_currentHighlight (s : State) (el : Element) : bool :=
  match currentHighlight s with
  | Some h => same_element el h
  | None => false
  end.

(** One of the session's own elements. *)
Definition infrastructure (s : State) (el : Element) : bool :=
  same_element el (overlay s) || same_element el (banner s) ||
  is_currentHighlight s el.

(** [getTargetElement] returns an element or null, or throws. *)
Definition getTargetElement (pg : Page) (s : State) (x y : float)
    (useModifier : bool) : JsError + option Element :=
  match elementFromPoint pg x y with
  | None => inr None
  | Some element =>
      if infrastructure s element then inr None
      else if useModifier then
        match meaningful_parent (root pg) element with
        | inr target => inr (Some target)
        | inl e => inl e
        end
      else inr (Some element)
  end.

Definition cleanupSelection (s : State) : State * list Effect :=
  ({| eventId := eventId s; overlay := overlay s; banner := banner s;
      isSelecting := false;
      currentHighlight := currentHighlight s;
      selectorActive := false;
      cleanupRegistered := false;
      listeners := [] |},
   (match currentHighlight s with
    | Some h => [RemoveNode h]
    | None => []
    end ++
    [RemoveNode (overlay s); RemoveNode (banner s);
     RemoveListener OnMouseMove; RemoveListener OnClickCapture;
     RemoveListener OnKeyDown; ResetCursor])%list).

(** [createHighlight]; [fresh] is the element [document.createElement]
    returns. *)
Definition createHighlight (pg : Page) (fresh : Element) (s : State)
    (element : Element) : State * list Effect :=
  ({| eventId := eventId s; overlay := overlay s; banner := banner s;
      isSelecting := isSelecting s;
      currentHighlight := Some fresh;
      selectorActive := selectorActive s;
      cleanupRegistered := cleanupRegistered s;
      listeners := listeners s |},
   (match currentHighlight s with
    | Some h => [RemoveNode h]
    | None => []
    end ++
    [AppendHighlight fresh (rect (attrs_of (root pg) element))])%list).

Definition handleMouseMove (pg : Page) (fresh : Element) (s : State)
    (e : MouseEvent) : State * list Effect :=
  if negb (isSelecting s) then (s, [])
  else
    let isModifierPressed := ctrlKey e || metaKey e in
    match getTargetElement pg s (clientX e) (clientY e) isModifierPressed
    with
    | inr (Some element) =>
        let '(s', fx) := createHighlight pg fresh s element in
        (s', SetBanner isModifierPressed :: fx)
    | inr None => (s, [SetBanner isModifierPressed])
    | inl err => (s, [SetBanner isModifierPressed; Uncaught err])
    end.

Definition handleClick (pg : Page) (s : State) (e : MouseEvent)
  : State * list Effect :=
  if negb (isSelecting s) then (s, [])
  else
    let isModifierPressed := ctrlKey e || metaKey e in
    match getTargetElement pg s (clientX e) (clientY e) isModifierPressed
    with
    | inr (Some element) =>
        let elementSelector :=
          Builder.getElementSelector (root pg) element in
        let '(s', fx) := cleanupSelection s in
        (s',
         (PreventDefault :: StopPropagation ::
          SendMessage (ELEMENT_SELECTED (eventId s) elementSelector
                         (href pg)) :: fx)%list)
    | inr None => (s, [PreventDefault; StopPropagation])
    | inl err => (s, [PreventDefault; StopPropagation; Uncaught err])
    end.

Definition handleKeyDown (s : State) (key : string)
  : State * list Effect :=
  if String.eqb key "Escape" then
    let '(s', fx) := cleanupSelection s in
    (s', SendMessage SELECTION_CANCELLED :: fx)
  else (s, []).

(** The side panel's [handleMessage]. *)
Definition handleMessage (now : Z) (m : Message)
    (st : Store.BIEventsState) : Store.BIEventsState :=
  match m with
  | ELEMENT_SELECTED ev el u => Store.addMapping now ev el u st
  | SELECTION_CANCELLED => Store.cancelSelection st
  end.

Definition is_teardown (fx : Effect) : bool :=
  match fx with
  | RemoveNode _ | RemoveListener _ | ResetCursor => true
  | _ => false
  end.

Definition is_send (fx : Effect) : bool :=
  match fx with
  | SendMessage _ => true
  | _ => false
  end.

(** *** The widening of the target as the specification words it *)

(** The ancestors the upward walk visits from [current] on, nearest
    first: those below [document.body], or all of them when the body is
    not among them. *)
Fixpoint visited_from (root : Node) (current : Element) : list Element :=
  if is_body root current then []
  else current ::
       match current with
       | [] => []
       | _ :: parent => visited_from root parent
       end.








End Session.

(* ================================================================= *)
(** ** The locator resolver: [highlightElement] *)

Module Resolver.
Import JsString Dom.

Inductive Exn :=
| DOMException (name : string)
| TypeError (message : string).

(** The three lookups of the document.  A selector or an XPath expression
    the engine cannot parse makes the call throw.  What an XPath
    expression yields is a node, which the source takes for an element;
    [isElementNode] tells whether it is one, and so whether it has
    [scrollIntoView].  [hasBody] tells whether [document.body] is an
    element or null. *)
Record Document := {
  getElementById : string -> option Element;
  querySelector : string -> Exn + option Element;
  evaluate : string -> Exn + option Element;
  isElementNode : Element -> bool;
  hasBody : bool
}.

Inductive Call :=
| GetElementById (id : string)
| QuerySelector (sel : string)
| Evaluate (xp : string).

Inductive Effect :=
| Called (c : Call)
| Warned (msg arg : string)
| Removed (el : Element)
| ErrorBanner (text : string)
| ScrollIntoView (el : Element)
| HighlightLater (el : Element).

(** A computation that may throw and that leaves a trace. *)
Definition M (A : Type) : Type := list Effect -> (Exn + A) * list Effect.

Definition ret {A} (a : A) : M A := fun l => (inr a, l).

Definition bind {A B} (m : M A) (k : A -> M B) : M B :=
  fun l =>
    match m l with
    | (inl e, l') => (inl e, l')
    | (inr a, l') => k a l'
    end.

Definition try_catch {A} (m : M A) (handler : Exn -> M A) : M A :=
  fun l =>
    match m l with
    | (inl e, l') => handler e l'
    | (inr a, l') => (inr a, l')
    end.

Definition throw {A} (e : Exn) : M A := fun l => (inl e, l).

Definition emit (e : Effect) : M unit :=
  fun l => (inr tt, (l ++ [e])%list).

Definition call {A} (c : Call) (r : Exn + A) : M A :=
  fun l => (r, (l ++ [Called c])%list).

Notation "x <- m ;; k" := (bind m (fun x => k))
  (at level 61, m at next level, right associativity).
Notation "m ;;; k" := (bind m (fun _ => k))
  (at level 61, right associativity).

Definition is_null {A} (o : option A) : bool :=
  match o with Some _ => false | None => true end.

Definition text_of (o : option string) : string :=
  match o with Some s => s | None => "" end.

Definition dataHookQuery (h : string) : string :=
  "[data-hook=" ++ dquote ++ h ++ dquote ++ "]".

(** The four attempts, from [let targetElement = null] to the end of the
    XPath block. *)
Definition resolve (doc : Document) (sel : Store.ElementSelector)
  : M (option Element) :=
  let targetElement : option Element := None in
  targetElement <-
    (if truthy_opt (Store.id sel) then
       call (GetElementById (text_of (Store.id sel)))
            (inr (getElementById doc (text_of (Store.id sel))))
     else ret targetElement) ;;
  targetElement <-
    (if is_null targetElement && truthy_opt (Store.dataHook sel) then
       try_catch
         (call (QuerySelector (dataHookQuery (text_of (Store.dataHook sel))))
               (querySelector doc
                  (dataHookQuery (text_of (Store.dataHook sel)))))
         (fun _ =>
            emit (Warned "Invalid data-hook selector:"
                         (text_of (Store.dataHook sel))) ;;;
            ret targetElement)
     else ret targetElement) ;;
  targetElement <-
    (if is_null targetElement && truthy (Store.selector sel) then
       try_catch
         (call (QuerySelector (Store.selector sel))
               (querySelector doc (Store.selector sel)))
         (fun _ =>
            emit (Warned "Invalid CSS selector:" (Store.selector sel)) ;;;
            ret targetElement)
     else ret targetElement) ;;
  targetElement <-
    (if is_null targetElement && truthy (Store.xpath sel) then
       try_catch
         (call (Evaluate (Store.xpath sel))
               (evaluate doc (Store.xpath sel)))
         (fun _ =>
            emit (Warned "Invalid XPath:" (Store.xpath sel)) ;;;
            ret targetElement)
     else ret targetElement) ;;
  ret targetElement.

Definition notFoundText : string := "Element not found on current page".

(** What [document.body.appendChild] throws when the body is null, and
    what [targetElement.scrollIntoView] throws on a node that is no
    element. *)
Definition body_is_null : Exn :=
  TypeError "Cannot read properties of null (reading 'appendChild')".

Definition scrollIntoView_is_not_a_function : Exn :=
  TypeError "targetElement.scrollIntoView is not a function".

(** The whole routine, up to its return.  The two timers, which remove
    the banner and draw and remove the highlight later, are part of the
    effects [ErrorBanner] and [HighlightLater]; what they do when they
    fire is not part of the call.  Neither the append of the banner nor
    the scroll is inside a [try]: the first throws when the document has
    no body, the second when the node found is no element. *)
Definition highlightElement (doc : Document) (sel : Store.ElementSelector)
  : M unit :=
  existingHighlight <-
    call (GetElementById "bi-element-highlighter")
         (inr (getElementById doc "bi-element-highlighter")) ;;
  (match existingHighlight with
   | Some h => emit (Removed h)
   | None => ret tt
   end) ;;;
  targetElement <- resolve doc sel ;;
  match targetElement with
  | None =>
      if hasBody doc then emit (ErrorBanner notFoundText)
      else throw body_is_null
  | Some t =>
      if isElementNode doc t then
        emit (ScrollIntoView t) ;;; emit (HighlightLater t)
      else throw scrollIntoView_is_not_a_function
  end.

(** *** The order of the strategies as the specification words it *)

(** The strategies a locator gives rise to, in their fixed order; a
    strategy whose field is absent or empty has nothing to look up. *)
Definition strategies (sel : Store.ElementSelector) : list Call :=
  ((if truthy_opt (Store.id sel)
    then [GetElementById (text_of (Store.id sel))] else []) ++
   (if truthy_opt (Store.dataHook sel)
    then [QuerySelector (dataHookQuery (text_of (Store.dataHook sel)))]
    else []) ++
   (if truthy (Store.selector sel)
    then [QuerySelector (Store.selector sel)] else []) ++
   (if truthy (Store.xpath sel)
    then [Evaluate (Store.xpath sel)] else []))%list.

(** The strategies that come before the XPath one. *)
Definition before_xpath (sel : Store.ElementSelector) : list Call :=
  ((if truthy_opt (Store.id sel)
    then [GetElementById (text_of (Store.id sel))] else []) ++
   (if truthy_opt (Store.dataHook sel)
    then [QuerySelector (dataHookQuery (text_of (Store.dataHook sel)))]
    else []) ++
   (if truthy (Store.selector sel)
    then [QuerySelector (Store.selector sel)] else []))%list.

Definition throws (doc : Document) (c : Call) : bool :=
  match c with
  | GetElementById _ => false
  | QuerySelector q =>
      match querySelector doc q with inl _ => true | inr _ => false end
  | Evaluate x =>
      match evaluate doc x with inl _ => true | inr _ => false end
  end.

(** What a strategy yields; one that throws yields nothing. *)
Definition yield (doc : Document) (c : Call) : option Element :=
  match c with
  | GetElementById i => getElementById doc i
  | QuerySelector q =>
      match querySelector doc q with inl _ => None | inr r => r end
  | Evaluate x =>
      match evaluate doc x with inl _ => None | inr r => r end
  end.

(** The strategies tried up to and including the first that yields an
    element, and what it yields. *)
Fixpoint first_hit (doc : Document) (cs : list Call)
  : list Call * option Element :=
  match cs with
  | [] => ([], None)
  | c :: r =>
      match yield doc c with
      | Some el => ([c], Some el)
      | None => let '(tried, res) := first_hit doc r in (c :: tried, res)
      end
  end.

Definition misses (doc : Document) (c : Call) : Prop :=
  yield doc c = None.

(** The effects of a lookup, and the effects that show a found
    element. *)
Definition is_lookup_effect (e : Effect) : bool :=
  match e with
  | Called _ | Warned _ _ => true
  | _ => false
  end.

Definition is_found_effect (e : Effect) : bool :=
  match e with
  | ScrollIntoView _ | HighlightLater _ => true
  | _ => false
  end.

Definition highlighterId : string := "bi-element-highlighter".

(** How the routine ends for what the resolution yields: whether it
    returns or throws, and what it does last. *)
Definition ending (doc : Document) (found : option Element)
  : (Exn + unit) * list Effect :=
  match found with
  | Some t =>
      if isElementNode doc t
      then (inr tt, [ScrollIntoView t; HighlightLater t])
      else (inl scrollIntoView_is_not_a_function, [])
  | None =>
      if hasBody doc
      then (inr tt, [ErrorBanner notFoundText])
      else (inl body_is_null, [])
  end.

Fixpoint calls_of (l : list Effect) : list Call :=
  match l with
  | [] => []
  | Called c :: r => c :: calls_of r
  | _ :: r => calls_of r
  end.

End Resolver.

(* ================================================================= *)
(** ** Concrete stores and pages *)

Module Samples.
Import Store.

Definition locator (sel xp : string) : ElementSelector :=
  {| selector := sel; xpath := xp; tagName := "button";
     className := None; id := None; dataHook := None; text := None;
     fullPath := None; dataHooksPath := None |}.

Definition page_url : string := "https://example.test/".

Definition m_cta : EventMapping :=
  {| eventId := "button_click";
     element := locator "button.cta" "/html/body[1]/button[1]";
     url := page_url; timestamp := 1000 |}.

Definition m_buy : EventMapping :=
  {| eventId := "button_click";
     element := locator "button.buy" "/html/body[1]/button[2]";
     url := page_url; timestamp := 2000 |}.

(** Two elements of one page mapped to the same event, and an event
    armed. *)
Definition two_buttons : BIEventsState :=
  {| events := defaultEvents;
     mappings := [m_cta; m_buy];
     selectedEventId := Some "form_submit";
     isSelecting := true |}.

Import Dom.

Definition attrs (tag i cls : string) (dh : option string) (w h : float)
  : Attrs :=
  {| tagName := tag; id := i; className := ClassString cls; dataHook := dh;
     rect := {| top := 0; left := 0; width := w; height := h |} |}.

(** A page with a button that has an id and a block with three
    classes. *)
Definition shop : Node :=
  Elem (attrs "HTML" "" "" None 800 600)
    [ Elem (attrs "HEAD" "" "" None 0 0) [];
      Text " ";
      Elem (attrs "BODY" "" "" None 800 600)
        [ Elem (attrs "DIV" "" "hero" None 800 100) [Text "Welcome"];
          Text " ";
          Elem (attrs "BUTTON" "cta" "btn" None 100 40) [Text " Buy now "];
          Elem (attrs "DIV" "" "a b c" None 400 300)
            [ Elem (attrs "SPAN" "" "" None 10 10) [Text "x"] ];
          Elem (attrs "DIV" "bi-element-selector-overlay" "" None 800 600)
            [];
          Elem (attrs "DIV" "" "" None 500 60)
            [Text "Click on an element to map it to your BI event."] ] ].

Definition shop_button : Element := [2; 2].
Definition shop_block : Element := [3; 2].
Definition shop_span : Element := [0; 3; 2].

(** A page with a card that carries the data attribute around a block
    of three times the area of its text, and a plain block of twice the
    area of its text. *)
Definition cards : Node :=
  Elem (attrs "HTML" "" "" None 800 600)
    [ Elem (attrs "BODY" "" "" None 800 600)
        [ Elem (attrs "SECTION" "" "" (Some "card") 40 40)
            [ Elem (attrs "DIV" "" "" None 30 10)
                [ Elem (attrs "SPAN" "" "" None 10 10) [Text "a"] ] ];
          Elem (attrs "DIV" "" "plain" None 20 10)
            [ Elem (attrs "SPAN" "" "" None 10 10) [Text "b"] ];
          Elem (attrs "DIV" "bi-element-selector-overlay" "" None 800 600)
            [];
          Elem (attrs "DIV" "" "" None 500 60)
            [Text "Click on an element to map it to your BI event."] ] ].

Definition card_section : Element := [0; 0].
Definition card_text : Element := [0; 0; 0; 0].
Definition plain_text : Element := [0; 1; 0].

(** Hit testing on [cards]: the card's text on the left, the plain
    block's text on the right. *)
Definition cards_page : Page :=
  {| root := cards;
     elementFromPoint :=
       fun x _ => if (x <? 50)%float then Some card_text
                  else Some plain_text;
     href := page_url |}.

Definition cards_overlay : Element := [2; 0].
Definition cards_banner : Element := [3; 0].

(** The session armed for [button_click] on [cards]. *)
Definition cards_session : Session.State :=
  Session.armed "button_click" cards_overlay cards_banner.

(** Hit testing that answers with the banner of the session. *)
Definition banner_page : Page :=
  {| root := cards;
     elementFromPoint := fun _ _ => Some cards_banner;
     href := page_url |}.

(** The session armed for [button_click] on [shop], with the pointer
    over the button. *)
Definition shop_session : Session.State :=
  Session.armed "button_click" [4; 2] [5; 2].

Definition shop_page : Page :=
  {| root := shop;
     elementFromPoint := fun _ _ => Some shop_button;
     href := page_url |}.

Definition click_at (x y : float) (ctrl : bool) : Session.MouseEvent :=
  {| Session.clientX := x; Session.clientY := y;
     Session.ctrlKey := ctrl; Session.metaKey := false |}.

(** A locator captured from a block with a class that no selector
    engine parses, and a page on which only its XPath still matches. *)
Definition stale_locator : ElementSelector :=
  {| Store.selector := "div.2col";
     Store.xpath := "/html/body[1]/div[2]";
     Store.tagName := "div"; Store.className := Some "2col";
     Store.id := Some "gone"; Store.dataHook := Some "old-hook";
     Store.text := None;
     Store.fullPath := None; Store.dataHooksPath := None |}.

Definition moved_page : Resolver.Document :=
  {| Resolver.getElementById := fun _ => None;
     Resolver.querySelector :=
       fun q => if String.eqb q "div.2col"
                then inl (Resolver.DOMException "SyntaxError")
                else inr None;
     Resolver.evaluate :=
       fun x => if String.eqb x "/html/body[1]/div[2]"
                then inr (Some shop_block)
                else inr None;
     Resolver.isElementNode := fun _ => true;
     Resolver.hasBody := true |}.

(** A page on which nothing of the locator matches and its XPath does
    not parse either. *)
Definition empty_page : Resolver.Document :=
  {| Resolver.getElementById := fun _ => None;
     Resolver.querySelector :=
       fun q => if String.eqb q "div.2col"
                then inl (Resolver.DOMException "SyntaxError")
                else inr None;
     Resolver.evaluate :=
       fun _ => inl (Resolver.DOMException "SyntaxError");
     Resolver.isElementNode := fun _ => true;
     Resolver.hasBody := true |}.

(** The same lookups in a document without a body, as a browser shows
    for an SVG image: nothing of the locator matches, the selector and the
    XPath do not parse, and [document.body] is null. *)
Definition svg_document : Resolver.Document :=
  {| Resolver.getElementById := fun _ => None;
     Resolver.querySelector :=
       fun q => if String.eqb q "div.2col"
                then inl (Resolver.DOMException "SyntaxError")
                else inr None;
     Resolver.evaluate :=
       fun _ => inl (Resolver.DOMException "SyntaxError");
     Resolver.isElementNode := fun _ => true;
     Resolver.hasBody := false |}.

End Samples.

(* ================================================================= *)
(** ** The side panel: what it reads from and writes to the store *)

Module Panel.
Import JsString.

(** [getEventMappings]: the mappings of an event on the current page. *)
Definition getEventMappings (mappings : list Store.EventMapping)
    (currentUrl eventId : string) : list Store.EventMapping :=
  filter (fun mapping =>
            String.eqb (Store.eventId mapping) eventId &&
            String.eqb (Store.url mapping) currentUrl)
         mappings.

(** [hasMapping], which decides the badge of an event. *)
Definition hasMapping (mappings : list Store.EventMapping)
    (currentUrl eventId : string) : bool :=
  (0 <? List.length (getEventMappings mappings currentUrl eventId))%nat.

(** [selectedEventId === eventId] *)
Definition isSelected (s : Store.BIEventsState) (eventId : string) : bool :=
  match Store.selectedEventId s with
  | Some x => String.eqb x eventId
  | None => false
  end.

(** What [handleEventClick] has the active tab run. *)
Inductive Injection :=
| InjectCleanup
| InjectStartElementSelection (eventId : string).

(** [tabs[0]?.id] is a number that counts as true. *)
Definition hasTab (tabId : option nat) : bool :=
  match tabId with
  | Some (S _) => true
  | _ => false
  end.

(** [handleEventClick]: the store operations it awaits, in their order,
    and the routine it injects.  [s] is the aggregate the panel has
    rendered and the store holds. *)
Definition handleEventClick (tabId : option nat) (eventId : string)
    (s : Store.BIEventsState) : Store.BIEventsState * list Injection :=
  if isSelected s eventId then
    (Store.cancelSelection s,
     if hasTab tabId then [InjectCleanup] else [])
  else
    (Store.selectEvent (Some eventId) (Store.cancelSelection s),
     if hasTab tabId then [InjectStartElementSelection eventId] else []).

(** A [Set] of strings: its members in the order of their insertion. *)
Definition StringSet := list string.

Definition set_has (x : string) (s : StringSet) : bool :=
  existsb (String.eqb x) s.

Definition set_delete (x : string) (s : StringSet) : StringSet :=
  filter (fun y => negb (String.eqb y x)) s.

Definition set_add (x : string) (s : StringSet) : StringSet :=
  if set_has x s then s else (s ++ [x])%list.

(** The updater of [toggleEventExpansion]. *)
Definition toggleEventExpansion (eventId : string) (prev : StringSet)
  : StringSet :=
  let newSet := prev in
  if set_has eventId newSet then set_delete eventId newSet
  else set_add eventId newSet.

(** [a && `...`] as a text child: nothing for an absent or empty [a]. *)
Definition shown (o : option string) (f : string -> string) : string :=
  match o with
  | Some a => if truthy a then f a else EmptyString
  | None => EmptyString
  end.

(** The label of a mapping: the tag name, then the id, the data attribute
    and the classes, each when present. *)
Definition renderedSelector (el : Store.ElementSelector) : string :=
  toLowerCase (Store.tagName el) ++
  shown (Store.id el) (fun i => "#" ++ i) ++
  shown (Store.dataHook el)
    (fun h => "[data-hook=" ++ dquote ++ h ++ dquote ++ "]") ++
  shown (Store.className el) (fun c => "." ++ join "." (split space c)).

(** The quoted text of a mapping, when the panel shows one. *)
Definition renderedText (el : Store.ElementSelector) : option string :=
  match Store.text el with
  | Some t =>
      if truthy t then
        Some (dquote ++ slice0 50 t ++
              (if (50 <? String.length t)%nat then "..." else "") ++
              dquote)
      else None
  | None => None
  end.

End Panel.

(* ================================================================= *)
(** ** The life of a selection session *)

Module Lifecycle.
Import JsString Dom Session.

(** An event of the document, with the page as it is when the event
    arrives. *)
Inductive DomEvent :=
| MouseMoved (pg : Page) (fresh : Element) (e : MouseEvent)
| Clicked (pg : Page) (e : MouseEvent)
| KeyPressed (key : string).

Definition listener_of (ev : DomEvent) : Listener :=
  match ev with
  | MouseMoved _ _ _ => OnMouseMove
  | Clicked _ _ => OnClickCapture
  | KeyPressed _ => OnKeyDown
  end.

Definition same_listener (a b : Listener) : bool :=
  match a, b with
  | OnMouseMove, OnMouseMove => true
  | OnClickCapture, OnClickCapture => true
  | OnKeyDown, OnKeyDown => true
  | _, _ => false
  end.

(** The document calls a handler while its listener is registered. *)
Definition deliver (s : State) (ev : DomEvent) : State * list Effect :=
  if existsb (same_listener (listener_of ev)) (listeners s) then
    match ev with
    | MouseMoved pg fresh e => handleMouseMove pg fresh s e
    | Clicked pg e => handleClick pg s e
    | KeyPressed key => handleKeyDown s key
    end
  else (s, []).

(** A sequence of events: the state it leaves and all the effects. *)
Fixpoint run (s : State) (evs : list DomEvent) : State * list Effect :=
  match evs with
  | [] => (s, [])
  | ev :: rest =>
      let '(s1, fx1) := deliver s ev in
      let '(s2, fx2) := run s1 rest in
      (s2, (fx1 ++ fx2)%list)
  end.

(** The messages among some effects. *)
Fixpoint messages (fx : list Effect) : list Message :=
  match fx with
  | [] => []
  | SendMessage m :: r => m :: messages r
  | _ :: r => messages r
  end.

Definition without (el : Element) (live : list Element) : list Element :=
  filter (fun x => negb (same_element x el)) live.

(** The elements of the session that are in the document: [remove] takes
    an element out, appending puts it in once. *)
Definition after_effect (live : list Element) (fx : Effect) : list Element :=
  match fx with
  | RemoveNode el => without el live
  | AppendHighlight el _ => el :: without el live
  | _ => live
  end.

Definition after_effects (live : list Element) (fx : list Effect)
  : list Element :=
  fold_left after_effect fx live.

(** The flags and the listeners of a session move together. *)
Definition consistent (s : State) : Prop :=
  selectorActive s = isSelecting s /\
  cleanupRegistered s = isSelecting s /\
  listeners s =
    if isSelecting s then [OnMouseMove; OnClickCapture; OnKeyDown] else [].

(** The event, the overlay and the banner of a session are fixed. *)
Definition same_session (s0 s : State) : Prop :=
  eventId s = eventId s0 /\ overlay s = overlay s0 /\ banner s = banner s0.

(** A message a session for the event [ev] may send. *)
Definition of_session (ev : string) (m : Message) : Prop :=
  match m with
  | ELEMENT_SELECTED e _ _ => e = ev
  | SELECTION_CANCELLED => True
  end.

(** The elements of the session that may be in the document: while the
    session is armed its overlay, its banner and its current highlight;
    none once it has ended. *)
Definition artifacts_ok (s : State) (live : list Element) : Prop :=
  if isSelecting s then
    forall x, In x live ->
              x = overlay s \/ x = banner s \/ currentHighlight s = Some x
  else live = [].

(** What [startElementSelection] does before and around the session it
    creates. *)
Inductive ArmEffect :=
| RemoveById (id : string)
| RemoveAllMatching (selector : string)
| RemoveFirstMatching (selector : string)
| ClearCursor
| Previous (fx : Effect)
| AppendOverlay (el : Element)
| AppendBanner (el : Element)
| AddListener (l : Listener)
| CrosshairCursor.

Definition overlayId : string := "bi-element-selector-overlay".

Definition bannerQuery : string :=
  "[style*=" ++ dquote ++ "position: fixed" ++ dquote ++ "][style*=" ++
  dquote ++ "top: 20px" ++ dquote ++ "]".



(** The function [handleEventClick] injects when the armed event is
    clicked again.  It removes elements by id and by style and resets the
    cursor; the variables and the listeners of the session are out of its
    reach. *)
Definition injectedCleanup (s : State) : State * list ArmEffect :=
  (s,
   [ RemoveById overlayId; RemoveFirstMatching bannerQuery;
     RemoveById Resolver.highlighterId; ClearCursor ]).

End Lifecycle.

(* ================================================================= *)
(** ** More of the locator builder and of the resolver, in words *)

Module BuilderSpec.
Import JsString Dom Builder.

(** The ancestor [k] steps of [parentElement] above an element; step 0
    is the element. *)
Definition ancestor (k : nat) (el : Element) : Element := skipn k el.

(** The entry of [dataHooksPath] for the ancestor [k] steps up. *)
Definition hook_entry (root : Node) (el : Element) (k : nat) (h : string)
  : Store.DataHookEntry :=
  {| Store.hookTagName :=
       toLowerCase (tagName (attrs_of root (ancestor k el)));
     Store.hookValue := h;
     Store.level := k |}.

(** The entries an element of the chain contributes, given the depth of
    the target. *)
Definition hooks_at (root : Node) (depth : nat) (anc : Element)
  : list Store.DataHookEntry :=
  match dataHook (attrs_of root anc) with
  | Some h =>
      if truthy h then
        [ {| Store.hookTagName := toLowerCase (tagName (attrs_of root anc));
             Store.hookValue := h;
             Store.level := depth - List.length anc |} ]
      else []
  | None => []
  end.

(** No white space in a string. *)
Fixpoint ws_free (s : string) : bool :=
  match s with
  | EmptyString => true
  | String c r => negb (is_space c) && ws_free r
  end.

(** The first character is no white space. *)
Definition starts_clean (s : string) : bool :=
  match s with
  | EmptyString => false
  | String c _ => negb (is_space c)
  end.

(** The last character is no white space. *)
Fixpoint ends_clean (s : string) : bool :=
  match s with
  | EmptyString => false
  | String c EmptyString => negb (is_space c)
  | String _ r => ends_clean r
  end.

(** The class tokens [pathPart] uses. *)
Definition path_classes (a : Attrs) : list string :=
  firstn 2 (split_ws (trim (className_toString (className a)))).

End BuilderSpec.

Module ResolverSpec.
Import Resolver.

Definition is_warning (e : Effect) : bool :=
  match e with
  | Warned _ _ => true
  | _ => false
  end.

Definition is_error_banner (e : Effect) : bool :=
  match e with
  | ErrorBanner _ => true
  | _ => false
  end.

End ResolverSpec.

(* ================================================================= *)
(** ** More concrete stores, pages and event sequences *)

Module Samples2.
Import Dom.

(** A click on the button of [shop], then a late click and a late key. *)
Definition click_then_more : list Lifecycle.DomEvent :=
  [ Lifecycle.MouseMoved Samples.shop_page [6; 2]
      (Samples.click_at 10 10 false);
    Lifecycle.Clicked Samples.shop_page (Samples.click_at 10 10 false);
    Lifecycle.Clicked Samples.shop_page (Samples.click_at 10 10 false);
    Lifecycle.KeyPressed "Escape" ].

(** The store after two mappings on the page and one on another page. *)
Definition m_other_page : Store.EventMapping :=
  {| Store.eventId := "button_click";
     Store.element := Samples.locator "button.cta" "/html/body[1]/button[1]";
     Store.url := "https://example.test/other"; Store.timestamp := 3000 |}.

Definition three_mappings : Store.BIEventsState :=
  {| Store.events := Store.defaultEvents;
     Store.mappings := [Samples.m_cta; m_other_page; Samples.m_buy];
     Store.selectedEventId := None;
     Store.isSelecting := false |}.

(** A page on which the id of the button of [shop] still resolves. *)
Definition same_page : Resolver.Document :=
  {| Resolver.getElementById :=
       fun i => if String.eqb i "cta" then Some Samples.shop_button
                else None;
     Resolver.querySelector := fun _ => inr None;
     Resolver.evaluate := fun _ => inr None;
     Resolver.isElementNode := fun _ => true;
     Resolver.hasBody := true |}.

(** A page on which the data attribute of the card still resolves. *)
Definition card_page : Resolver.Document :=
  {| Resolver.getElementById := fun _ => None;
     Resolver.querySelector :=
       fun q => if String.eqb q (Resolver.dataHookQuery "card")
                then inr (Some Samples.card_section) else inr None;
     Resolver.evaluate := fun _ => inr None;
     Resolver.isElementNode := fun _ => true;
     Resolver.hasBody := true |}.

(** A page with a drawing: an SVG element and its group, whose class
    names are objects, around a shape that carries the data attribute. *)
Definition svg_attrs (tag cls : string) (dh : option string) (w h : float)
  : Attrs :=
  {| tagName := tag; id := ""; className := SVGAnimatedString cls;
     dataHook := dh;
     rect := {| top := 0; left := 0; width := w; height := h |} |}.

Definition drawing : Node :=
  Elem (Samples.attrs "HTML" "" "" None 800 600)
    [ Elem (Samples.attrs "BODY" "" "" None 800 600)
        [ Elem (Samples.attrs "DIV" "" "chart__container" None 400 400)
            [ Elem (svg_attrs "svg" "" None 300 300)
                [ Elem (svg_attrs "g" "bars" None 200 200)
                    [ Elem (svg_attrs "rect" "bar" (Some "bar-1") 10 100)
                        [] ] ] ] ] ].

Definition drawing_svg : Element := [0; 0; 0].
Definition drawing_group : Element := [0; 0; 0; 0].
Definition drawing_bar : Element := [0; 0; 0; 0; 0].

(** Hit testing on [drawing]: the bar. *)
Definition drawing_page : Page :=
  {| root := drawing;
     elementFromPoint := fun _ _ => Some drawing_bar;
     href := Samples.page_url |}.

Definition drawing_session : Session.State :=
  Session.armed "button_click" [1; 0] [2; 0].

(** A document in which the XPath of a locator yields a text node. *)
Definition text_node_page : Resolver.Document :=
  {| Resolver.getElementById := fun _ => None;
     Resolver.querySelector := fun _ => inr None;
     Resolver.evaluate := fun _ => inr (Some [0; 0; 2]);
     Resolver.isElementNode := fun _ => false;
     Resolver.hasBody := true |}.

End Samples2.

(* ================================================================= *)
(** * Properties of the mapping store *)

Module StoreFacts.
Import Store.

Lemma same_key_iff ev el u m :
  same_key ev el u m = true <-> identical_key ev el u m.
Proof.
  unfold same_key, identical_key.
  rewrite !andb_true_iff, !String.eqb_eq. tauto.
Qed.

Lemma same_event_url_iff ev u m :
  same_event_url ev u m = true <-> eventId m = ev /\ url m = u.
Proof.
  unfold same_event_url. now rewrite andb_true_iff, !String.eqb_eq.
Qed.

(** [find] answers whether some record carries the key. *)
Lemma find_same_key_some ev el u l :
  (exists m, In m l /\ identical_key ev el u m) ->
  exists m, find (same_key ev el u) l = Some m.
Proof.
  intros (m & Hin & Hk). apply same_key_iff in Hk.
  induction l as [|x l IH]; simpl in *; [contradiction|].
  destruct (same_key ev el u x) eqn:E; [eauto|].
  destruct Hin as [->|Hin]; [congruence|auto].
Qed.

Lemma find_same_key_none ev el u l :
  (forall m, In m l -> ~ identical_key ev el u m) ->
  find (same_key ev el u) l = None.
Proof.
  intros H. destruct (find (same_key ev el u) l) eqn:E; [|reflexivity].
  apply find_some in E as [Hin Hk]. apply same_key_iff in Hk.
  now apply H in Hin.
Qed.

Lemma filter_length_app {A} (f : A -> bool) l1 l2 :
  length (filter f (l1 ++ l2)) = length (filter f l1) + length (filter f l2).
Proof. now rewrite filter_app, length_app. Qed.

Lemma find_none_count {A} (f : A -> bool) l :
  find f l = None -> length (filter f l) = 0.
Proof.
  induction l as [|x l IH]; simpl; [reflexivity|].
  destruct (f x); [discriminate|auto].
Qed.

Lemma find_some_count {A} (f : A -> bool) l x :
  find f l = Some x -> 1 <= length (filter f l).
Proof.
  induction l as [|y l IH]; simpl; [discriminate|].
  destruct (f y); simpl; [lia|auto].
Qed.

(** A second call with the same key finds the record of the first. *)
Lemma addMapping_then_found now ev el u s :
  exists m, find (same_key ev el u) (mappings (addMapping now ev el u s))
            = Some m.
Proof.
  unfold addMapping.
  destruct (find (same_key ev el u) (mappings s)) eqn:E; simpl.
  - eauto.
  - apply find_same_key_some.
    eexists. split; [apply in_or_app; right; left; reflexivity|].
    repeat split.
Qed.

Lemma addMapping_twice now now' ev el u s :
  addMapping now' ev el u (addMapping now ev el u s)
  = addMapping now ev el u s.
Proof.
  destruct (addMapping_then_found now ev el u s) as [m Hm].
  unfold addMapping at 1. rewrite Hm.
  unfold addMapping.
  destruct (find (same_key ev el u) (mappings s)); reflexivity.
Qed.

Lemma count_key_addMapping now ev el u s :
  count_key ev el u (addMapping now ev el u s)
  = Nat.max 1 (count_key ev el u s).
Proof.
  unfold count_key, addMapping.
  destruct (find (same_key ev el u) (mappings s)) eqn:E; cbn [mappings].
  - apply find_some_count in E. lia.
  - rewrite filter_length_app, (find_none_count _ _ E). cbn [filter].
    assert (K : same_key ev el u
                  {| eventId := ev; element := el; url := u;
                     timestamp := now |} = true)
      by (apply same_key_iff; repeat split).
    now rewrite K.
Qed.

(** The other operations do not raise the number of records of a key. *)
Lemma count_key_other_add now ev el u ev' el' u' s :
  same_key ev el u
    {| eventId := ev'; element := el'; url := u'; timestamp := now |}
  = false ->
  count_key ev el u (addMapping now ev' el' u' s) = count_key ev el u s.
Proof.
  intros K. unfold count_key, addMapping.
  destruct (find (same_key ev' el' u') (mappings s)); cbn [mappings];
    [reflexivity|].
  rewrite filter_length_app. cbn [filter]. rewrite K. cbn [length]. lia.
Qed.

Lemma filter_filter_length_le {A} (f g : A -> bool) l :
  length (filter f (filter g l)) <= length (filter f l).
Proof.
  induction l as [|x l IH]; simpl; [lia|].
  destruct (g x) eqn:G, (f x) eqn:F; simpl; rewrite ?F; simpl; lia.
Qed.

Lemma same_key_exchange ev el u ev' el' u' now :
  same_key ev el u
    {| eventId := ev'; element := el'; url := u'; timestamp := now |}
  = true ->
  forall m, same_key ev el u m = same_key ev' el' u' m.
Proof.
  intros K m. apply same_key_iff in K.
  destruct K as (K1 & K2 & K3 & K4); simpl in *. subst.
  unfold same_key. now rewrite K3, K4.
Qed.

(** In a state reached from the default one no key is stored twice. *)
Lemma reachable_count_key ev el u s :
  reachable s -> count_key ev el u s <= 1.
Proof.
  intros R. revert ev el u.
  induction R as [|o s R IH]; intros ev el u.
  - unfold count_key. simpl. lia.
  - destruct o as [sel|now ev' el' u'|ev' u'|]; simpl.
    + apply IH.
    + destruct (same_key ev el u
                  {| eventId := ev'; element := el'; url := u';
                     timestamp := now |}) eqn:K.
      * pose proof (same_key_exchange _ _ _ _ _ _ _ K) as X.
        unfold count_key.
        rewrite (filter_ext _ _ X).
        fold (count_key ev' el' u' (addMapping now ev' el' u' s)).
        rewrite count_key_addMapping. specialize (IH ev' el' u'). lia.
      * rewrite count_key_other_add by exact K. apply IH.
    + unfold count_key, removeMapping. simpl.
      etransitivity; [apply filter_filter_length_le|apply IH].
    + apply IH.
Qed.

(** C4. [addMapping] is a dedup-upsert.  When a record with identical
    event id, url, primary selector and xpath is stored, the mapping
    collection stays as it is and the selection state becomes
    [(null, false)].  When none is stored, exactly one record, stamped
    with the current time, is appended and the selection state becomes
    [(null, false)].  A second call with the same arguments changes
    nothing more, whatever the clock says; and where the key was stored
    at most once before, as in every state the operations reach, exactly
    one record of that key is stored after the two calls. *)
Theorem addMapping_dedup_upsert now now' ev el u s :
  ((exists m, In m (mappings s) /\ identical_key ev el u m) ->
   addMapping now ev el u s
   = {| events := events s; mappings := mappings s;
        selectedEventId := None; isSelecting := false |}) /\
  ((forall m, In m (mappings s) -> ~ identical_key ev el u m) ->
   addMapping now ev el u s
   = {| events := events s;
        mappings :=
          (mappings s ++
           [ {| eventId := ev; element := el; url := u;
                timestamp := now |} ])%list;
        selectedEventId := None; isSelecting := false |}) /\
  addMapping now' ev el u (addMapping now ev el u s)
  = addMapping now ev el u s /\
  (count_key ev el u s <= 1 ->
   count_key ev el u (addMapping now' ev el u (addMapping now ev el u s))
   = 1).
Proof.
  repeat split.
  - intros H. apply find_same_key_some in H as [m Hm].
    unfold addMapping. now rewrite Hm.
  - intros H. apply find_same_key_none in H.
    unfold addMapping. now rewrite H.
  - apply addMapping_twice.
  - intros H. rewrite addMapping_twice, count_key_addMapping. lia.
Qed.

Lemma addMapping_dedup_upsert_witness :
  mappings (addMapping 7 "button_click" (element Samples.m_cta)
              Samples.page_url Samples.two_buttons)
  = [Samples.m_cta; Samples.m_buy] /\
  mappings (addMapping 7 "link_click" (element Samples.m_cta)
              Samples.page_url defaultState)
  = [ {| eventId := "link_click"; element := element Samples.m_cta;
         url := Samples.page_url; timestamp := 7 |} ] /\
  count_key "link_click" (element Samples.m_cta) Samples.page_url
    (addMapping 9 "link_click" (element Samples.m_cta) Samples.page_url
       (addMapping 7 "link_click" (element Samples.m_cta) Samples.page_url
          defaultState))
  = 1.
Proof.
  split; [|split].
  - destruct (addMapping_dedup_upsert 7 9 "button_click"
                (element Samples.m_cta) Samples.page_url
                Samples.two_buttons) as (H & _).
    rewrite H; [reflexivity|].
    exists Samples.m_cta. split; [left; reflexivity|].
    repeat split.
  - destruct (addMapping_dedup_upsert 7 9 "link_click"
                (element Samples.m_cta) Samples.page_url
                defaultState) as (_ & H & _).
    rewrite H; [reflexivity|].
    intros m [].
  - destruct (addMapping_dedup_upsert 7 9 "link_click"
                (element Samples.m_cta) Samples.page_url
                defaultState) as (_ & _ & _ & H).
    apply H. unfold count_key. simpl. lia.
Defined.

(** C5. The invariant [isSelecting == (selectedEventId != null)] holds
    in the default state, every store operation ([selectEvent] with an
    event id or with null, [addMapping], [removeMapping],
    [cancelSelection]) preserves it, and so every state reached from
    the default state by these operations satisfies it. *)
Theorem selection_invariant :
  selection_inv defaultState /\
  (forall o s, selection_inv s -> selection_inv (apply o s)) /\
  (forall s, reachable s -> selection_inv s).
Proof.
  assert (step : forall o s, selection_inv s -> selection_inv (apply o s)).
  { intros o s H. unfold selection_inv in *.
    destruct o as [sel|now ev el u|ev u|]; simpl; try reflexivity.
    - unfold addMapping.
      destruct (find (same_key ev el u) (mappings s)); reflexivity.
    - exact H. }
  split; [reflexivity|split; [exact step|]].
  intros s R. induction R as [|o s R IH]; [reflexivity|].
  now apply step.
Qed.

Lemma selection_invariant_witness :
  selection_inv
    (apply (OpRemoveMapping "button_click" Samples.page_url)
       Samples.two_buttons) /\
  selection_inv
    (apply (OpSelectEvent None)
       (apply (OpSelectEvent (Some "video_play")) defaultState)).
Proof.
  destruct selection_invariant as (_ & step & reach).
  split.
  - apply step. reflexivity.
  - apply reach. apply reach_step, reach_step, reach_default.
Defined.

(** What [removeMapping] keeps: the records of other (event, url)
    pairs, in their order. *)
Lemma removeMapping_in ev u s m :
  In m (mappings (removeMapping ev u s)) <->
  In m (mappings s) /\ ~ (eventId m = ev /\ url m = u).
Proof.
  unfold removeMapping. cbn [mappings].
  rewrite filter_In, negb_true_iff, <- not_true_iff_false,
    same_event_url_iff.
  reflexivity.
Qed.

Lemma removeMapping_no_match ev u s :
  (forall m, In m (mappings s) -> ~ (eventId m = ev /\ url m = u)) ->
  removeMapping ev u s = s.
Proof.
  intros H. destruct s as [evs ms sel b]. unfold removeMapping.
  cbn [events mappings selectedEventId isSelecting] in *.
  f_equal. induction ms as [|m ms IH]; [reflexivity|].
  cbn [filter].
  destruct (same_event_url ev u m) eqn:E.
  - apply same_event_url_iff in E. exfalso.
    apply (H m); [left; reflexivity|exact E].
  - cbn [negb]. f_equal. apply IH. intros m' Hin. apply H. now right.
Qed.

(** The call of the side panel removes what the two-argument function
    removes, whatever selector it passes. *)
Lemma handleRemoveMapping_all currentUrl ev sel s m :
  In m (mappings (handleRemoveMapping currentUrl ev sel s)) <->
  In m (mappings s) /\ ~ (eventId m = ev /\ url m = currentUrl).
Proof. apply removeMapping_in. Qed.

(** C9. [removeMapping] changes the [mappings] field only: the events
    catalog, [selectedEventId] and [isSelecting] are after the call what
    they were before it. *)
Theorem removeMapping_frame ev u s :
  events (removeMapping ev u s) = events s /\
  selectedEventId (removeMapping ev u s) = selectedEventId s /\
  isSelecting (removeMapping ev u s) = isSelecting s.
Proof. repeat split. Qed.

(** C1. The specification has [removeMapping(eventId, url,
    primarySelector)] delete the records whose event id, url and primary
    selector all match and leave the records of the same event and url
    that have another primary selector.  The side panel does pass the
    selector of the mapping whose button was pressed; the store function
    has no third parameter.  With two elements of one page mapped to
    [button_click], removing the mapping of [button.cta] removes both,
    where the specification leaves the mapping of [button.buy]. *)
Theorem removeMapping_ignores_selector :
  mappings (handleRemoveMapping Samples.page_url "button_click"
              (Some "button.cta") Samples.two_buttons)
  = [] /\
  mappings (removeMapping_spec "button_click" Samples.page_url
              (Some "button.cta") Samples.two_buttons)
  = [Samples.m_buy].
Proof. split; reflexivity. Qed.

End StoreFacts.

(* ================================================================= *)
(** * Facts about strings *)

Module StringFacts.
Import JsString.

(** The string functions on small inputs. *)
Example toLowerCase_tag : toLowerCase "DIV" = "div".
Proof. reflexivity. Qed.

Example trim_both_ends :
  trim (String (ascii_of_nat 9) "  a b  ") = "a b".
Proof. reflexivity. Qed.

Example split_single_spaces : split space "a  b" = ["a"; ""; "b"].
Proof. reflexivity. Qed.

Example split_ws_runs : split_ws "a  b c" = ["a"; "b"; "c"].
Proof. reflexivity. Qed.

Example split_empty : split space "" = [""].
Proof. reflexivity. Qed.

Example join_dots : join "." ["a"; "b"; "c"] = "a.b.c".
Proof. reflexivity. Qed.

Example includes_inside : includes "__card" "shop__card big" = true.
Proof. reflexivity. Qed.

Example includes_absent : includes "Card__" "shop__card big" = false.
Proof. reflexivity. Qed.

Example of_nat_decimal : of_nat 12 = "12".
Proof. reflexivity. Qed.

Example slice0_short : slice0 50 "Buy now" = "Buy now".
Proof. reflexivity. Qed.

Lemma append_nil_r s : s ++ "" = s.
Proof. induction s as [|c s IH]; simpl; [reflexivity|now rewrite IH]. Qed.

Lemma append_assoc s t u : (s ++ t) ++ u = s ++ (t ++ u).
Proof. induction s as [|c s IH]; simpl; [reflexivity|now rewrite IH]. Qed.

(** Joining with the empty separator is concatenation. *)
Lemma concat_empty_cons x xs :
  String.concat "" (x :: xs) = x ++ String.concat "" xs.
Proof.
  destruct xs as [|y ys]; simpl; [now rewrite append_nil_r|reflexivity].
Qed.

Lemma concat_empty_app xs ys :
  String.concat "" (xs ++ ys)
  = String.concat "" xs ++ String.concat "" ys.
Proof.
  induction xs as [|x xs IH]; [reflexivity|].
  rewrite <- app_comm_cons, !concat_empty_cons, IH.
  now rewrite append_assoc.
Qed.

Lemma concat_cons_cons sep x y l :
  String.concat sep (x :: y :: l) = x ++ sep ++ String.concat sep (y :: l).
Proof. reflexivity. Qed.

Lemma split_not_nil sep s : split sep s <> [].
Proof.
  destruct s as [|c r]; simpl; [discriminate|].
  destruct (Ascii.eqb c sep); [discriminate|].
  destruct (split sep r); discriminate.
Qed.

(** A string free of the separator is one piece. *)
Lemma split_free sep t : free_of sep t = true -> split sep t = [t].
Proof.
  induction t as [|c t IH]; simpl; [reflexivity|].
  intros H. apply andb_true_iff in H as [Hc Ht].
  apply negb_true_iff in Hc. rewrite Hc, (IH Ht). reflexivity.
Qed.

Lemma split_free_app sep t r :
  free_of sep t = true ->
  split sep (t ++ String sep r) = t :: split sep r.
Proof.
  induction t as [|c t IH]; simpl; intros H.
  - now rewrite Ascii.eqb_refl.
  - apply andb_true_iff in H as [Hc Ht].
    apply negb_true_iff in Hc. rewrite Hc, (IH Ht). reflexivity.
Qed.

(** [split] undoes [join] on pieces that are free of the separator. *)
Lemma split_join sep toks :
  toks <> [] ->
  Forall (fun t => free_of sep t = true) toks ->
  split sep (join (String sep "") toks) = toks.
Proof.
  intros Hne Hall. induction Hall as [|t toks Ht Hall IH];
    [congruence|].
  destruct toks as [|t' toks'].
  - simpl. now apply split_free.
  - unfold join in *. rewrite concat_cons_cons.
    change (String sep "" ++ String.concat (String sep "") (t' :: toks'))
      with (String sep (String.concat (String sep "") (t' :: toks'))).
    rewrite split_free_app by exact Ht.
    f_equal. apply IH. discriminate.
Qed.

End StringFacts.

(* ================================================================= *)
(** * Properties of the locator builder *)

Module BuilderFacts.
Import JsString Dom Builder StringFacts.

Lemma firstn_succ_some {A} (l : list A) j x :
  nth_error l j = Some x -> firstn (S j) l = (firstn j l ++ [x])%list.
Proof.
  revert j. induction l as [|y l IH]; intros [|j] H; simpl in *;
    try discriminate.
  - now inversion H.
  - f_equal. now apply IH.
Qed.

Lemma firstn_succ_none {A} (l : list A) j :
  nth_error l j = None -> firstn (S j) l = firstn j l.
Proof.
  revert j. induction l as [|y l IH]; intros [|j] H; simpl in *;
    try discriminate; try reflexivity.
  f_equal. now apply IH.
Qed.

(** The inner loop counts the preceding element siblings of the tag. *)
Lemma sibling_loop_count kids tag i index :
  sibling_loop kids tag i index = index + same_tag_before kids tag i.
Proof.
  revert index. induction i as [|j IH]; intros index.
  - unfold same_tag_before. simpl. lia.
  - cbn [sibling_loop]. unfold same_tag_before in *.
    destruct (nth_error kids j) as [n|] eqn:E.
    + rewrite (firstn_succ_some _ _ _ E), filter_app, length_app.
      destruct n as [d|a ks]; rewrite IH; cbn [filter]; cbn [length].
      * lia.
      * destruct (String.eqb (tagName a) tag); cbn [length]; lia.
    + rewrite (firstn_succ_none _ _ E). apply IH.
Qed.

(** The outer loop prepends one step for each element of the chain. *)
Lemma xpath_loop_steps root el path :
  xpath_loop root el path
  = String.concat "" (map (xpath_step root) (chain_from_root el)) ++ path.
Proof.
  revert path. induction el as [|i parent IH]; intros path.
  - reflexivity.
  - cbn [xpath_loop chain_from_root].
    rewrite IH, map_app, concat_empty_app. cbn [map].
    rewrite concat_empty_cons. cbn [String.concat].
    rewrite append_nil_r, sibling_loop_count.
    unfold xpath_step. rewrite !append_assoc. reflexivity.
Qed.

Lemma prefix_refl s : prefix s s = true.
Proof.
  induction s as [|c s IH]; simpl; [reflexivity|].
  destruct (ascii_dec c c); [exact IH|congruence].
Qed.

(** C8. The [xpath] field of the locator.  For an element with an id it
    is the id-qualified path [//*[@id=...]] with the id between double
    quotes, so that for an element whose id is [cta] it starts with that
    path for [cta].  For an element without id it is [/html] followed,
    from the outermost ancestor below the root element down to the
    element, by one step [/tag[k]] each, where [tag] is the lowercased
    tag name and [k] is one more than the number of preceding element
    siblings with the same tag name. *)
Theorem getXPath_id_or_position root el :
  let a := attrs_of root el in
  let xp := Store.xpath (getElementSelector root el) in
  (truthy (id a) = true ->
   xp = "//*[@id=" ++ dquote ++ id a ++ dquote ++ "]") /\
  (id a = "cta" ->
   prefix ("//*[@id=" ++ dquote ++ "cta" ++ dquote ++ "]") xp = true) /\
  (truthy (id a) = false ->
   xp = "/html" ++
        String.concat "" (map (xpath_step root) (chain_from_root el))).
Proof.
  cbn zeta. cbn [Store.xpath getElementSelector]. unfold getXPath.
  split; [|split].
  - intros H. now rewrite H.
  - intros H. rewrite H. cbn [truthy]. apply prefix_refl.
  - intros H. rewrite H, xpath_loop_steps, append_nil_r. reflexivity.
Qed.

Lemma getXPath_id_or_position_witness :
  Store.xpath (getElementSelector Samples.shop Samples.shop_button)
  = "//*[@id=" ++ dquote ++ "cta" ++ dquote ++ "]" /\
  prefix ("//*[@id=" ++ dquote ++ "cta" ++ dquote ++ "]")
    (Store.xpath (getElementSelector Samples.shop Samples.shop_button))
  = true /\
  Store.xpath (getElementSelector Samples.shop Samples.shop_span)
  = "/html/body[1]/div[2]/span[1]".
Proof.
  split; [|split].
  - apply (getXPath_id_or_position Samples.shop Samples.shop_button).
    reflexivity.
  - apply (getXPath_id_or_position Samples.shop Samples.shop_button).
    reflexivity.
  - destruct (getXPath_id_or_position Samples.shop Samples.shop_span)
      as (_ & _ & H).
    rewrite H; reflexivity.
Defined.

(** C2, as the code has it.  The primary selector is the lowercased tag
    name followed by the first available of: [#] and the id; the data
    attribute in brackets; or, for an element whose class name is a
    string, a dot and all the class tokens of the element, however many,
    joined by dots, the tokens being the pieces of the trimmed class
    attribute between single spaces.  An element with a string class name
    and none of the three has the tag name alone as its selector. *)
Theorem primarySelector_all_class_tokens root el :
  let a := attrs_of root el in
  let tag := toLowerCase (tagName a) in
  let sel := Store.selector (getElementSelector root el) in
  (truthy (id a) = true -> sel = tag ++ "#" ++ id a) /\
  (truthy (id a) = false ->
   forall h, dataHook a = Some h -> truthy h = true ->
   sel = tag ++ "[data-hook=" ++ dquote ++ h ++ dquote ++ "]") /\
  (truthy (id a) = false -> truthy_opt (dataHook a) = false ->
   forall value toks,
     className a = ClassString value ->
     trim value = join " " toks ->
     truthy (trim value) = true ->
     Forall (fun t => free_of space t = true) toks ->
     sel = tag ++ "." ++ join "." toks /\
     class_count a = List.length toks) /\
  (truthy (id a) = false -> truthy_opt (dataHook a) = false ->
   forall value,
     className a = ClassString value ->
     truthy (trim value) = false -> sel = tag).
Proof.
  cbn zeta. cbn [Store.selector getElementSelector].
  unfold primarySelector, class_count.
  split; [|split; [|split]].
  - intros H. now rewrite H.
  - intros H h Hh Ht. rewrite H, Hh. cbn [truthy_opt]. now rewrite Ht.
  - intros H Hd value toks Hv Hc Hn Hall. rewrite H, Hd, Hv.
    cbn [className_toString]. rewrite Hn.
    assert (Hs : split space (trim value) = toks).
    { rewrite Hc. change " " with (String space "").
      apply split_join; [|exact Hall].
      intros ->. rewrite Hc in Hn. discriminate. }
    now rewrite Hs.
  - intros H Hd value Hv Hn. rewrite H, Hd, Hv.
    cbn [className_toString]. now rewrite Hn.
Qed.

Lemma primarySelector_all_class_tokens_witness :
  Store.selector (getElementSelector Samples.shop Samples.shop_button)
  = "button#cta" /\
  Store.selector (getElementSelector Samples.cards Samples.card_section)
  = "section[data-hook=" ++ dquote ++ "card" ++ dquote ++ "]" /\
  (Store.selector (getElementSelector Samples.shop Samples.shop_block)
   = "div.a.b.c" /\
   class_count (attrs_of Samples.shop Samples.shop_block) = 3) /\
  Store.selector (getElementSelector Samples.shop Samples.shop_span)
  = "span".
Proof.
  split; [|split; [|split]].
  - apply (primarySelector_all_class_tokens Samples.shop
             Samples.shop_button).
    reflexivity.
  - apply (primarySelector_all_class_tokens Samples.cards
             Samples.card_section); reflexivity.
  - destruct (primarySelector_all_class_tokens Samples.shop
                Samples.shop_block) as (_ & _ & H & _).
    apply (H eq_refl eq_refl "a b c" ["a"; "b"; "c"]); try reflexivity.
    repeat constructor.
  - destruct (primarySelector_all_class_tokens Samples.shop
                Samples.shop_span) as (_ & _ & _ & H).
    apply (H eq_refl eq_refl ""); reflexivity.
Defined.

(** C2, as the specification has it, fails on a block without id and
    data attribute that has the three classes [a], [b] and [c]: its
    primary selector holds all three, not two at most. *)
Lemma primarySelector_three_classes :
  let a := attrs_of Samples.shop Samples.shop_block in
  let sel :=
    Store.selector (getElementSelector Samples.shop Samples.shop_block) in
  truthy (id a) = false /\ truthy_opt (dataHook a) = false /\
  sel = "div.a.b.c" /\
  sel <> primarySelector_spec a /\
  ~ List.length (class_tokens sel) <= 2.
Proof.
  cbn zeta. repeat split; try reflexivity.
  - vm_compute. discriminate.
  - vm_compute. lia.
Qed.

(** The ancestor path of the same block does stop at two classes. *)
Example fullPath_keeps_two_classes :
  Store.fullPath (getElementSelector Samples.shop Samples.shop_block)
  = Some "html > body > div.a.b".
Proof. reflexivity. Qed.

(** The data attributes on the way to the text of the card. *)
Example dataHooksPath_of_card_text :
  Store.dataHooksPath (getElementSelector Samples.cards Samples.card_text)
  = Some [ {| Store.hookTagName := "section"; Store.hookValue := "card";
              Store.level := 2 |} ].
Proof. reflexivity. Qed.

End BuilderFacts.

(* ================================================================= *)
(** * Properties of the selection session *)

Module SessionFacts.
Import JsString Dom Session.

Lemma same_element_iff a b : same_element a b = true <-> a = b.
Proof.
  unfold same_element.
  destruct (list_eq_dec Nat.eq_dec a b); split; congruence.
Qed.

Lemma infrastructure_iff s el :
  infrastructure s el = true <->
  el = overlay s \/ el = banner s \/ currentHighlight s = Some el.
Proof.
  unfold infrastructure, is_currentHighlight.
  rewrite !orb_true_iff, !same_element_iff.
  destruct (currentHighlight s) as [h|].
  - rewrite same_element_iff. intuition congruence.
  - intuition congruence.
Qed.



(** The walk throws at a parent that is no body, carries no data
    attribute and has an object for its class name. *)
Lemma parent_walk_throws root element current best b :
  is_body root current = false ->
  hasDataHook (attrs_of root current) = false ->
  className (attrs_of root current) = SVGAnimatedString b ->
  parent_walk root element current best = inl includes_is_not_a_function.
Proof.
  intros Hb Hd Hc. destruct current; cbn [parent_walk];
    now rewrite Hb, Hd, Hc.
Qed.




(** Without the modifier key the target is the element under the
    pointer. *)
Lemma getTargetElement_plain pg s x y element :
  elementFromPoint pg x y = Some element ->
  infrastructure s element = false ->
  getTargetElement pg s x y false = inr (Some element).
Proof.
  intros Hhit Hinf. unfold getTargetElement. now rewrite Hhit, Hinf.
Qed.

(** A click on an element of the page completes the session: the locator
    is sent and everything is torn down. *)
Lemma handleClick_completes pg s e element :
  isSelecting s = true ->
  getTargetElement pg s (clientX e) (clientY e) (ctrlKey e || metaKey e)
  = inr (Some element) ->
  snd (handleClick pg s e)
  = (PreventDefault :: StopPropagation ::
     SendMessage (ELEMENT_SELECTED (eventId s)
                    (Builder.getElementSelector (root pg) element)
                    (href pg)) ::
     snd (cleanupSelection s))%list /\
  isSelecting (fst (handleClick pg s e)) = false /\
  listeners (fst (handleClick pg s e)) = [].
Proof.
  intros Hsel Ht. unfold handleClick. rewrite Hsel, Ht. cbn.
  repeat split.
Qed.

(** A handler whose walk throws does nothing more: the error is
    reported, no message is sent and the session stays as it was. *)
Lemma handleClick_throws pg s e err :
  isSelecting s = true ->
  getTargetElement pg s (clientX e) (clientY e) (ctrlKey e || metaKey e)
  = inl err ->
  handleClick pg s e = (s, [PreventDefault; StopPropagation; Uncaught err]).
Proof.
  intros Hsel Ht. unfold handleClick. now rewrite Hsel, Ht.
Qed.

(** C10.  In an armed session a click whose point resolves to the
    overlay, to the banner or to the current highlight changes nothing
    of the session: the handler sends no message, removes no element
    and no listener, and leaves the state of the session, which stays
    armed, as it was.  All it does is stop the click from reaching the
    page. *)
Theorem handleClick_on_infrastructure pg s e el :
  isSelecting s = true ->
  elementFromPoint pg (clientX e) (clientY e) = Some el ->
  el = overlay s \/ el = banner s \/ currentHighlight s = Some el ->
  handleClick pg s e = (s, [PreventDefault; StopPropagation]) /\
  filter is_send (snd (handleClick pg s e)) = [] /\
  filter is_teardown (snd (handleClick pg s e)) = [] /\
  isSelecting (fst (handleClick pg s e)) = true.
Proof.
  intros Hsel Hhit Hinf. apply infrastructure_iff in Hinf.
  assert (E : handleClick pg s e = (s, [PreventDefault; StopPropagation])).
  { unfold handleClick, getTargetElement.
    now rewrite Hsel, Hhit, Hinf. }
  rewrite E. repeat split. exact Hsel.
Qed.

Lemma handleClick_on_infrastructure_witness :
  handleClick Samples.banner_page Samples.cards_session
    (Samples.click_at 400 30 false)
  = (Samples.cards_session, [PreventDefault; StopPropagation]).
Proof.
  apply (handleClick_on_infrastructure Samples.banner_page
           Samples.cards_session (Samples.click_at 400 30 false)
           Samples.cards_banner).
  - reflexivity.
  - reflexivity.
  - right. left. reflexivity.
Defined.

End SessionFacts.

(* ================================================================= *)
(** * Properties of the locator resolver *)

Module ResolverFacts.
Import JsString Dom Resolver.

Ltac run_cases doc :=
  repeat match goal with
    | |- context [getElementById doc ?x] =>
        destruct (getElementById doc x) as [?|] eqn:?
    | |- context [querySelector doc ?x] =>
        destruct (querySelector doc x) as [?|[?|]] eqn:?
    | |- context [evaluate doc ?x] =>
        destruct (evaluate doc x) as [?|[?|]] eqn:?
    end;
  cbn [first_hit yield app fst snd is_null andb].

Ltac close_run :=
  first
    [ exists (@nil Effect);
      split; [now rewrite app_nil_r|split; [reflexivity|constructor]]
    | rewrite <- ?app_assoc; eexists;
      split; [reflexivity|split; [reflexivity|repeat constructor]] ].

(** The attempts of [resolve] are those of [first_hit] on the strategies
    of the locator, and so is its result; [resolve] does not throw. *)
Lemma resolve_run doc sel l :
  exists fx,
    resolve doc sel l
    = (inr (snd (first_hit doc (strategies sel))), (l ++ fx)%list) /\
    calls_of fx = fst (first_hit doc (strategies sel)) /\
    Forall (fun e => is_lookup_effect e = true) fx.
Proof.
  unfold resolve, strategies, bind, try_catch, call, emit, ret.
  destruct (truthy_opt (Store.id sel)),
           (truthy_opt (Store.dataHook sel)),
           (truthy (Store.selector sel)),
           (truthy (Store.xpath sel));
    cbn [first_hit yield app fst snd is_null andb];
    run_cases doc; run_cases doc; run_cases doc; run_cases doc;
    close_run.
Qed.

Lemma calls_of_app l1 l2 :
  calls_of (l1 ++ l2) = (calls_of l1 ++ calls_of l2)%list.
Proof.
  induction l1 as [|e l1 IH]; [reflexivity|].
  destruct e; cbn [calls_of app]; rewrite IH; reflexivity.
Qed.

Section OnDocument.
Variable doc : Document.

(** A strategy that throws is a strategy that misses. *)
Lemma throws_misses c : throws doc c = true -> misses doc c.
Proof.
  unfold misses.
  destruct c as [i|q|x]; cbn [throws yield]; [discriminate| |].
  - destruct (querySelector doc q); [reflexivity|discriminate].
  - destruct (evaluate doc x); [reflexivity|discriminate].
Qed.

(** [first_hit] passes over the strategies that miss. *)
Lemma first_hit_skip pre rest :
  Forall (misses doc) pre ->
  first_hit doc (pre ++ rest)
  = ((pre ++ fst (first_hit doc rest))%list, snd (first_hit doc rest)).
Proof.
  induction 1 as [|c pre Hc Hpre IH]; cbn [app first_hit].
  - now destruct (first_hit doc rest).
  - rewrite Hc, IH. reflexivity.
Qed.

Lemma first_hit_all_miss cs :
  Forall (misses doc) cs -> first_hit doc cs = (cs, None).
Proof.
  intros H. rewrite <- (app_nil_r cs) at 1.
  rewrite first_hit_skip by exact H. cbn. now rewrite app_nil_r.
Qed.

(** What [first_hit] tries is an initial part of the strategies: up to
    and including the first that yields an element, or all of them when
    none does. *)
Lemma first_hit_shape cs :
  exists rest,
    cs = (fst (first_hit doc cs) ++ rest)%list /\
    match snd (first_hit doc cs) with
    | Some el =>
        exists before c,
          fst (first_hit doc cs) = (before ++ [c])%list /\
          Forall (misses doc) before /\ yield doc c = Some el
    | None => rest = [] /\ Forall (misses doc) (fst (first_hit doc cs))
    end.
Proof.
  induction cs as [|c cs IH]; cbn [first_hit].
  - exists []. cbn. repeat split. constructor.
  - destruct (yield doc c) as [el|] eqn:E.
    + exists cs. cbn. split; [reflexivity|].
      exists [], c. repeat split; [constructor|exact E].
    + destruct IH as (rest & Hcs & Hres).
      destruct (first_hit doc cs) as [tried res]. cbn [fst snd] in *.
      exists rest. split; [now rewrite Hcs at 1|].
      destruct res as [el|].
      * destruct Hres as (before & c' & -> & Hb & Hy).
        exists (c :: before), c'. repeat split; [|exact Hy].
        constructor; [exact E|exact Hb].
      * destruct Hres as [-> Hall]. split; [reflexivity|].
        constructor; [exact E|exact Hall].
Qed.

End OnDocument.

(** The run of [highlightElement]: the removal of a left-over highlight,
    the attempts of [resolve], and the ending. *)
Lemma highlightElement_run doc sel l :
  exists fx,
    calls_of fx = fst (first_hit doc (strategies sel)) /\
    Forall (fun e => is_lookup_effect e = true) fx /\
    highlightElement doc sel l
    = (fst (ending doc (snd (first_hit doc (strategies sel)))),
       (l ++
        (Called (GetElementById highlighterId) ::
         match getElementById doc highlighterId with
         | Some h => [Removed h]
         | None => []
         end) ++
        fx ++
        snd (ending doc (snd (first_hit doc (strategies sel)))))%list).
Proof.
  unfold highlightElement, bind, call, emit, ret, throw, highlighterId,
    ending.
  destruct (getElementById doc "bi-element-highlighter") as [h|].
  - destruct (resolve_run doc sel
                ((l ++ [Called (GetElementById "bi-element-highlighter")])
                   ++ [Removed h])%list)
      as (fx & Hrun & Hcalls & Hfx).
    exists fx. split; [exact Hcalls|]. split; [exact Hfx|].
    rewrite Hrun.
    destruct (snd (first_hit doc (strategies sel))) as [t|];
      [destruct (isElementNode doc t)|destruct (hasBody doc)];
      cbn [app fst snd]; rewrite <- ?app_assoc, ?app_nil_r; reflexivity.
  - destruct (resolve_run doc sel
                (l ++ [Called (GetElementById "bi-element-highlighter")])%list)
      as (fx & Hrun & Hcalls & Hfx).
    exists fx. split; [exact Hcalls|]. split; [exact Hfx|].
    rewrite Hrun.
    destruct (snd (first_hit doc (strategies sel))) as [t|];
      [destruct (isElementNode doc t)|destruct (hasBody doc)];
      cbn [app fst snd]; rewrite <- ?app_assoc, ?app_nil_r; reflexivity.
Qed.

Lemma strategies_split sel :
  truthy (Store.xpath sel) = true ->
  strategies sel = (before_xpath sel ++ [Evaluate (Store.xpath sel)])%list.
Proof.
  intros Hx. unfold strategies, before_xpath. rewrite Hx.
  now rewrite <- !app_assoc.
Qed.

Lemma before_xpath_not_evaluate sel c x :
  In c (before_xpath sel) -> c <> Evaluate x.
Proof.
  unfold before_xpath.
  destruct (truthy_opt (Store.id sel)),
           (truthy_opt (Store.dataHook sel)),
           (truthy (Store.selector sel));
    cbn [In app]; intuition (subst; discriminate).
Qed.

(** C6.  The resolver attempts the strategies of a locator in the fixed
    order id lookup, data attribute query, primary CSS selector, XPath
    evaluation.  What it attempts is an initial part of that sequence:
    it ends with the first strategy that yields an element, whose
    element is the result, and nothing after that strategy is attempted;
    when no strategy yields an element all are attempted and the result
    is null.  In particular, when the strategies before the XPath one
    all miss and the XPath expression matches, the match is the
    result. *)
Theorem resolve_in_fixed_order doc sel l :
  (exists tried rest result fx,
     resolve doc sel l = (inr result, (l ++ fx)%list) /\
     calls_of fx = tried /\
     strategies sel = (tried ++ rest)%list /\
     match result with
     | Some el =>
         exists before c,
           tried = (before ++ [c])%list /\
           Forall (misses doc) before /\ yield doc c = Some el
     | None => rest = [] /\ Forall (misses doc) tried
     end) /\
  (forall el,
     truthy (Store.xpath sel) = true ->
     evaluate doc (Store.xpath sel) = inr (Some el) ->
     (forall c, In c (strategies sel) ->
                c <> Evaluate (Store.xpath sel) -> misses doc c) ->
     fst (resolve doc sel l) = inr (Some el)).
Proof.
  destruct (resolve_run doc sel l) as (fx & Hrun & Hcalls & _).
  split.
  - destruct (first_hit_shape doc (strategies sel)) as (rest & Hs & Hres).
    exists (fst (first_hit doc (strategies sel))), rest,
      (snd (first_hit doc (strategies sel))), fx.
    repeat split; assumption.
  - intros el Hx Hev Hmiss. rewrite Hrun. cbn [fst]. do 2 f_equal.
    rewrite (strategies_split _ Hx) in *.
    assert (Hpre : Forall (misses doc) (before_xpath sel)).
    { apply Forall_forall. intros c Hc. apply Hmiss.
      - apply in_or_app. now left.
      - now apply (before_xpath_not_evaluate sel). }
    rewrite first_hit_skip by exact Hpre.
    cbn [first_hit yield snd]. now rewrite Hev.
Qed.

Lemma resolve_in_fixed_order_witness :
  fst (resolve Samples.moved_page Samples.stale_locator [])
  = inr (Some Samples.shop_block).
Proof.
  destruct (resolve_in_fixed_order Samples.moved_page
              Samples.stale_locator []) as [_ H].
  apply H.
  - reflexivity.
  - reflexivity.
  - intros c Hc Hne. vm_compute in Hc.
    destruct Hc as [<-|[<-|[<-|[<-|[]]]]]; try reflexivity.
    exfalso. apply Hne. reflexivity.
Defined.

(** The resolution itself never throws: a selector or an XPath
    expression that the engine refuses is caught where it is tried. *)
Lemma resolve_returns doc sel l : exists r, fst (resolve doc sel l) = inr r.
Proof.
  destruct (resolve_run doc sel l) as (fx & Hrun & _). rewrite Hrun.
  eexists. reflexivity.
Qed.

(** What holds of [highlightElement] for every locator and document.  A
    strategy that throws is treated as one that misses: the strategies
    after it are attempted up to the first that yields an element.
    When every strategy misses and the document has a body, the routine
    returns, and the last thing it does is show the banner saying that
    the element was not found; when the document has no body it throws
    and shows nothing. *)
Lemma highlightElement_after_misses doc sel l :
  exists fx,
    snd (highlightElement doc sel l) = (l ++ fx)%list /\
    (forall before c after,
       strategies sel = (before ++ c :: after)%list ->
       Forall (misses doc) before ->
       throws doc c = true ->
       calls_of fx
       = (GetElementById highlighterId ::
          before ++ c :: fst (first_hit doc after))%list) /\
    (Forall (misses doc) (strategies sel) ->
     Forall (fun e => is_found_effect e = false) fx /\
     (hasBody doc = true ->
      fst (highlightElement doc sel l) = inr tt /\
      exists fx', fx = (fx' ++ [ErrorBanner notFoundText])%list) /\
     (hasBody doc = false ->
      fst (highlightElement doc sel l) = inl body_is_null /\
      ~ In (ErrorBanner notFoundText) fx)).
Proof.
  destruct (highlightElement_run doc sel l) as (fxr & Hcalls & Hfx & Hrun).
  eexists. rewrite Hrun. cbn [fst snd]. split; [reflexivity|]. split.
  - intros before c after Hs Hb Hc.
    rewrite !calls_of_app, Hcalls, Hs, first_hit_skip by exact Hb.
    cbn [first_hit fst]. rewrite (throws_misses _ _ Hc).
    destruct (first_hit doc after) as [tried res]. cbn [fst snd].
    assert (E : calls_of (snd (ending doc res)) = []).
    { unfold ending. destruct res as [t|];
        [destruct (isElementNode doc t)|destruct (hasBody doc)];
        reflexivity. }
    rewrite E, app_nil_r.
    now destruct (getElementById doc highlighterId).
  - intros Hall. rewrite (first_hit_all_miss _ _ Hall). cbn [snd ending].
    assert (Pre : Forall (fun e => is_found_effect e = false)
                    ((Called (GetElementById highlighterId)
                      :: match getElementById doc highlighterId with
                         | Some h => [Removed h]
                         | None => []
                         end) ++ fxr)).
    { apply Forall_app. split;
        [destruct (getElementById doc highlighterId); repeat constructor|].
      eapply Forall_impl; [|exact Hfx].
      intros e He. now destruct e. }
    destruct (hasBody doc); cbn [fst snd].
    + split; [|split; [|discriminate]].
      * rewrite app_assoc. apply Forall_app. split; [exact Pre|].
        repeat constructor.
      * intros _. split; [reflexivity|].
        eexists. rewrite app_assoc. reflexivity.
    + rewrite app_nil_r. split; [exact Pre|]. split; [discriminate|].
      intros _. split; [reflexivity|].
      intros Hin. apply in_app_or in Hin as [Hin|Hin].
      * destruct (getElementById doc highlighterId);
          cbn in Hin; intuition discriminate.
      * rewrite Forall_forall in Hfx. apply Hfx in Hin. discriminate.
Qed.

(** C7.  The specification has the resolver never throw: a strategy that
    fails is caught and counts as a miss, and when every strategy misses
    the banner is shown and the routine returns.  The three lookups are
    each in a [try], the append of the banner is not.  In a document
    without a body, which a browser shows for an SVG image, with a
    locator of which nothing matches, the selector and the XPath are
    caught and warned about as the specification says, and then the
    routine throws at [document.body.appendChild] and shows no banner.
    In a document with a body the same lookups end with the banner. *)
Theorem highlightElement_throws_without_body :
  highlightElement Samples.svg_document Samples.stale_locator []
  = (inl body_is_null,
     [ Called (GetElementById highlighterId);
       Called (GetElementById "gone");
       Called (QuerySelector (dataHookQuery "old-hook"));
       Called (QuerySelector "div.2col");
       Warned "Invalid CSS selector:" "div.2col";
       Called (Evaluate "/html/body[1]/div[2]");
       Warned "Invalid XPath:" "/html/body[1]/div[2]" ]) /\
  highlightElement Samples.empty_page Samples.stale_locator []
  = (inr tt,
     [ Called (GetElementById highlighterId);
       Called (GetElementById "gone");
       Called (QuerySelector (dataHookQuery "old-hook"));
       Called (QuerySelector "div.2col");
       Warned "Invalid CSS selector:" "div.2col";
       Called (Evaluate "/html/body[1]/div[2]");
       Warned "Invalid XPath:" "/html/body[1]/div[2]";
       ErrorBanner notFoundText ]).
Proof. split; reflexivity. Qed.

End ResolverFacts.


(* ================================================================= *)
(** * Two sessions from start to end *)

Module Scenarios.
Import JsString Dom Session.

(** The event [button_click] is armed and the user clicks the button whose
    id is [cta]: the session sends one message, and the store then holds
    one mapping of [button_click] whose primary selector is [button#cta]
    and whose xpath is the id-qualified one, with the selection cleared. *)
Lemma click_on_cta_is_mapped :
  let el := Builder.getElementSelector Samples.shop Samples.shop_button in
  let sent := ELEMENT_SELECTED "button_click" el Samples.page_url in
  let st :=
    handleMessage 42 sent
      (Store.selectEvent (Some "button_click") Store.defaultState) in
  filter is_send
    (snd (handleClick Samples.shop_page Samples.shop_session
            (Samples.click_at 10 10 false)))
  = [SendMessage sent] /\
  Store.selector el = "button#cta" /\
  Store.xpath el = "//*[@id=" ++ dquote ++ "cta" ++ dquote ++ "]" /\
  Store.text el = Some "Buy now" /\
  Store.fullPath el = Some "html > body > button#cta" /\
  Store.mappings st
  = [ {| Store.eventId := "button_click"; Store.element := el;
         Store.url := Samples.page_url; Store.timestamp := 42 |} ] /\
  Store.selectedEventId st = None /\
  Store.isSelecting st = false.
Proof. cbn zeta. repeat split; reflexivity. Qed.

(** Escape in the middle of a session: the session sends the cancellation
    and tears itself down, and the store is back at its default state,
    with no mapping recorded. *)
Lemma escape_cancels :
  handleKeyDown Samples.cards_session "Escape"
  = ({| eventId := "button_click";
        overlay := Samples.cards_overlay; banner := Samples.cards_banner;
        isSelecting := false; currentHighlight := None;
        selectorActive := false; cleanupRegistered := false;
        listeners := [] |},
     [ SendMessage SELECTION_CANCELLED;
       RemoveNode Samples.cards_overlay; RemoveNode Samples.cards_banner;
       RemoveListener OnMouseMove; RemoveListener OnClickCapture;
       RemoveListener OnKeyDown; ResetCursor ]) /\
  handleMessage 42 SELECTION_CANCELLED
    (Store.selectEvent (Some "button_click") Store.defaultState)
  = Store.defaultState.
Proof. split; reflexivity. Qed.

(** Moving the pointer with the modifier key held previews the widened
    target. *)
Lemma move_with_modifier_previews_card :
  handleMouseMove Samples.cards_page [4; 0] Samples.cards_session
    (Samples.click_at 10 10 true)
  = ({| eventId := "button_click";
        overlay := Samples.cards_overlay; banner := Samples.cards_banner;
        isSelecting := true; currentHighlight := Some [4; 0];
        selectorActive := true; cleanupRegistered := true;
        listeners := [OnMouseMove; OnClickCapture; OnKeyDown] |},
     [ SetBanner true;
       AppendHighlight [4; 0]
         (rect (attrs_of Samples.cards Samples.card_section)) ]).
Proof. reflexivity. Qed.

End Scenarios.


(* ================================================================= *)
(** * More properties of the mapping store and of the side panel *)

Module StoreMore.
Import JsString Store Panel.

Lemma filter_idem {A} (f : A -> bool) l : filter f (filter f l) = filter f l.
Proof.
  induction l as [|x l IH]; [reflexivity|].
  cbn [filter]. destruct (f x) eqn:E; [|exact IH].
  cbn [filter]. now rewrite E, IH.
Qed.

Lemma filter_comm {A} (f g : A -> bool) l :
  filter f (filter g l) = filter g (filter f l).
Proof.
  induction l as [|x l IH]; [reflexivity|].
  cbn [filter].
  destruct (g x) eqn:G, (f x) eqn:F; cbn [filter]; rewrite ?G, ?F, IH;
    reflexivity.
Qed.

(** A filter sees through another one that drops only what it drops. *)
Lemma filter_through {A} (f g : A -> bool) l :
  (forall x, f x = true -> g x = true) ->
  filter f (filter g l) = filter f l.
Proof.
  intros H. induction l as [|x l IH]; [reflexivity|].
  cbn [filter]. destruct (g x) eqn:G.
  - cbn [filter]. now rewrite IH.
  - destruct (f x) eqn:F; [|exact IH].
    apply H in F. congruence.
Qed.

Lemma filter_none {A} (f : A -> bool) l :
  (forall x, f x = true -> False) -> filter f l = [].
Proof.
  intros H. induction l as [|x l IH]; [reflexivity|].
  cbn [filter]. destruct (f x) eqn:F; [destruct (H x F)|exact IH].
Qed.

Lemma pair_match_iff ev u m :
  String.eqb (eventId m) ev && String.eqb (url m) u = true <->
  eventId m = ev /\ url m = u.
Proof. now rewrite andb_true_iff, !String.eqb_eq. Qed.

(** X1.  [removeMapping(eventId, url)] removes the records of that event
    on that page and no other: a record is stored afterwards exactly when
    it was stored before and is of another event or another page.  The
    panel then shows no mapping for the event on the page, and what it
    shows for any other event or page is what it showed before, in the
    same order. *)
Theorem removeMapping_removes_the_pair ev u s :
  (forall m,
     In m (mappings (removeMapping ev u s)) <->
     In m (mappings s) /\ ~ (eventId m = ev /\ url m = u)) /\
  getEventMappings (mappings (removeMapping ev u s)) u ev = [] /\
  (forall ev' u',
     ev' <> ev \/ u' <> u ->
     getEventMappings (mappings (removeMapping ev u s)) u' ev'
     = getEventMappings (mappings s) u' ev').
Proof.
  split; [|split].
  - intros m. unfold removeMapping. cbn [mappings].
    rewrite filter_In, negb_true_iff, <- not_true_iff_false.
    unfold same_event_url. now rewrite pair_match_iff.
  - unfold getEventMappings, removeMapping. cbn [mappings].
    induction (mappings s) as [|m l IH]; [reflexivity|].
    cbn [filter]. unfold same_event_url at 1.
    destruct (String.eqb (eventId m) ev && String.eqb (url m) u) eqn:E;
      cbn [negb]; [exact IH|].
    cbn [filter]. now rewrite E.
  - intros ev' u' Hne.
    unfold getEventMappings, removeMapping. cbn [mappings].
    apply filter_through. intros m Hm.
    apply pair_match_iff in Hm as [<- <-].
    apply negb_true_iff.
    destruct (same_event_url ev u m) eqn:E; [|reflexivity].
    apply StoreFacts.same_event_url_iff in E.
    destruct E, Hne; congruence.
Qed.

Lemma removeMapping_removes_the_pair_witness :
  getEventMappings
    (mappings (removeMapping "button_click" Samples.page_url
                 Samples2.three_mappings))
    "https://example.test/other" "button_click"
  = [Samples2.m_other_page].
Proof.
  destruct (removeMapping_removes_the_pair "button_click" Samples.page_url
              Samples2.three_mappings) as (_ & _ & H).
  rewrite H; [reflexivity|].
  right. discriminate.
Defined.

(** X2.  Removing twice is removing once, and two removals can be made in
    either order. *)
Theorem removeMapping_idempotent_and_commutes ev u ev' u' s :
  removeMapping ev u (removeMapping ev u s) = removeMapping ev u s /\
  removeMapping ev u (removeMapping ev' u' s)
  = removeMapping ev' u' (removeMapping ev u s).
Proof.
  unfold removeMapping. cbn [events mappings selectedEventId isSelecting].
  split; f_equal; [apply filter_idem|apply filter_comm].
Qed.

(** X3.  A removal for an event that the panel shows as unmapped on the
    page is a no-op: the aggregate that is written back is the one that
    was read. *)
Theorem removeMapping_of_unmapped_is_noop ev u s :
  hasMapping (mappings s) u ev = false ->
  removeMapping ev u s = s.
Proof.
  intros H. apply StoreFacts.removeMapping_no_match.
  intros m Hin Hm. apply pair_match_iff in Hm.
  unfold hasMapping in H. apply Nat.ltb_ge in H.
  assert (Hf : In m (getEventMappings (mappings s) u ev))
    by (apply filter_In; split; assumption).
  destruct (getEventMappings (mappings s) u ev); [destruct Hf|].
  cbn [List.length] in H. lia.
Qed.

Lemma removeMapping_of_unmapped_is_noop_witness :
  removeMapping "video_play" Samples.page_url Samples.two_buttons
  = Samples.two_buttons.
Proof.
  apply (removeMapping_of_unmapped_is_noop "video_play" Samples.page_url
           Samples.two_buttons).
  reflexivity.
Defined.

(** X4.  In every state that the operations reach from the default state
    no two stored records have the same event id, url, primary selector
    and xpath. *)
Theorem reachable_keys_are_unique s :
  reachable s ->
  forall ev el u, count_key ev el u s <= 1.
Proof.
  intros R ev el u. now apply StoreFacts.reachable_count_key.
Qed.

Lemma reachable_keys_are_unique_witness :
  count_key "button_click" (element Samples.m_cta) Samples.page_url
    (apply (OpAddMapping 2 "button_click" (element Samples.m_cta)
              Samples.page_url)
       (apply (OpAddMapping 1 "button_click" (element Samples.m_cta)
                 Samples.page_url) defaultState))
  <= 1.
Proof.
  apply (reachable_keys_are_unique
           (apply (OpAddMapping 2 "button_click" (element Samples.m_cta)
                     Samples.page_url)
              (apply (OpAddMapping 1 "button_click" (element Samples.m_cta)
                        Samples.page_url) defaultState))).
  apply reach_step, reach_step, reach_default.
Defined.

Lemma addMapping_hasMapping now ev el u s :
  hasMapping (mappings (addMapping now ev el u s)) u ev = true.
Proof.
  destruct (StoreFacts.addMapping_then_found now ev el u s) as [m Hm].
  apply find_some in Hm as [Hin Hk].
  apply StoreFacts.same_key_iff in Hk as (K1 & K2 & _).
  unfold hasMapping. apply Nat.ltb_lt.
  assert (Hf : In m (getEventMappings
                       (mappings (addMapping now ev el u s)) u ev)).
  { apply filter_In. split; [exact Hin|].
    apply pair_match_iff. now split. }
  destruct (getEventMappings _ u ev); [destruct Hf|].
  cbn [List.length]. lia.
Qed.

(** X5.  [addMapping] removes and reorders nothing: the records stored
    before are the first records stored afterwards, followed by the new
    record or by nothing.  Afterwards the panel shows the event as mapped
    on the page. *)
Theorem addMapping_keeps_the_records now ev el u s :
  (exists tail,
     mappings (addMapping now ev el u s) = (mappings s ++ tail)%list /\
     (tail = [] \/
      tail = [ {| eventId := ev; element := el; url := u;
                  timestamp := now |} ])) /\
  hasMapping (mappings (addMapping now ev el u s)) u ev = true.
Proof.
  split.
  - unfold addMapping.
    destruct (find (same_key ev el u) (mappings s)); cbn [mappings].
    + exists []. split; [now rewrite app_nil_r|now left].
    + eexists. split; [reflexivity|now right].
  - apply addMapping_hasMapping.
Qed.

(** X6.  The catalog of events is read-only: in every state that the
    operations reach it is the default catalog. *)
Theorem reachable_catalog_is_default s :
  reachable s -> events s = defaultEvents.
Proof.
  induction 1 as [|o s R IH]; [reflexivity|].
  destruct o as [sel|now ev el u|ev u|]; cbn [apply]; try exact IH.
  unfold addMapping.
  destruct (find (same_key ev el u) (mappings s)); exact IH.
Qed.

Lemma reachable_catalog_is_default_witness :
  events (apply (OpRemoveMapping "button_click" Samples.page_url)
            (apply (OpSelectEvent (Some "video_play")) defaultState))
  = defaultEvents.
Proof.
  apply (reachable_catalog_is_default
           (apply (OpRemoveMapping "button_click" Samples.page_url)
              (apply (OpSelectEvent (Some "video_play")) defaultState))).
  apply reach_step, reach_step, reach_default.
Defined.

(** X7.  A mapping that is added and then removed for its event and page
    leaves the records that a removal alone leaves, with the selection
    cleared. *)
Theorem removeMapping_undoes_addMapping now ev el u s :
  removeMapping ev u (addMapping now ev el u s)
  = cancelSelection (removeMapping ev u s).
Proof.
  unfold addMapping.
  destruct (find (same_key ev el u) (mappings s)); [reflexivity|].
  unfold removeMapping, cancelSelection.
  cbn [events mappings selectedEventId isSelecting]. f_equal.
  rewrite filter_app. cbn [filter]. unfold same_event_url at 2.
  cbn [eventId url]. rewrite !String.eqb_refl. cbn [andb negb].
  apply app_nil_r.
Qed.

(** X8.  [handleEventClick] toggles the armed event and touches nothing
    else.  The catalog and the mappings stay, and the invariant of the
    selection holds afterwards.  A click on the armed event disarms it
    and has the page cleaned up; a click on any other event arms that
    event and has the page start a selection for it; without a tab
    nothing is injected. *)
Theorem handleEventClick_toggles tabId ev s :
  let r := handleEventClick tabId ev s in
  events (fst r) = events s /\
  mappings (fst r) = mappings s /\
  selection_inv (fst r) /\
  (selectedEventId s = Some ev ->
   selectedEventId (fst r) = None /\
   snd r = if hasTab tabId then [InjectCleanup] else []) /\
  (selectedEventId s <> Some ev ->
   selectedEventId (fst r) = Some ev /\
   snd r = if hasTab tabId then [InjectStartElementSelection ev] else []).
Proof.
  cbn zeta. unfold handleEventClick, isSelected.
  destruct (selectedEventId s) as [x|] eqn:E.
  - destruct (String.eqb_spec x ev) as [->|Hne]; cbn [fst snd];
      repeat split; try reflexivity; try congruence.
  - cbn [fst snd]. repeat split; try reflexivity; try congruence.
Qed.

Lemma handleEventClick_toggles_witness :
  selectedEventId
    (fst (handleEventClick (Some 7) "form_submit" Samples.two_buttons))
  = None /\
  selectedEventId
    (fst (handleEventClick (Some 7) "video_play" Samples.two_buttons))
  = Some "video_play".
Proof.
  split.
  - apply (handleEventClick_toggles (Some 7) "form_submit"
             Samples.two_buttons).
    reflexivity.
  - apply (handleEventClick_toggles (Some 7) "video_play"
             Samples.two_buttons).
    discriminate.
Defined.

Lemma set_has_delete x e s :
  set_has x (set_delete e s) = set_has x s && negb (String.eqb x e).
Proof.
  unfold set_has, set_delete.
  induction s as [|y s IH]; [reflexivity|].
  cbn [filter existsb].
  destruct (String.eqb_spec y e) as [->|Hy]; cbn [negb].
  - rewrite IH. destruct (String.eqb_spec x e) as [->|Hx].
    + now rewrite !andb_false_r.
    + cbn [negb orb]. reflexivity.
  - cbn [existsb]. rewrite IH.
    destruct (String.eqb_spec x y) as [->|Hxy]; [|reflexivity].
    destruct (String.eqb_spec y e); [contradiction|reflexivity].
Qed.

Lemma set_has_add x e s :
  set_has x (set_add e s) = set_has x s || String.eqb x e.
Proof.
  unfold set_add. destruct (set_has e s) eqn:E.
  - destruct (String.eqb_spec x e) as [->|]; [|now rewrite orb_false_r].
    now rewrite E.
  - unfold set_has. rewrite existsb_app. cbn [existsb].
    now rewrite orb_false_r.
Qed.

(** X9.  [toggleEventExpansion] flips the membership of the event and of
    no other: afterwards the event is expanded exactly when it was not,
    every other event is as it was, and toggling the same event twice
    leaves every event as it was. *)
Theorem toggleEventExpansion_flips e s :
  set_has e (toggleEventExpansion e s) = negb (set_has e s) /\
  (forall x, x <> e ->
     set_has x (toggleEventExpansion e s) = set_has x s) /\
  (forall x,
     set_has x (toggleEventExpansion e (toggleEventExpansion e s))
     = set_has x s).
Proof.
  assert (flip : forall t,
            set_has e (toggleEventExpansion e t) = negb (set_has e t)).
  { intros t. unfold toggleEventExpansion.
    destruct (set_has e t) eqn:E.
    - rewrite set_has_delete, String.eqb_refl. now rewrite andb_false_r.
    - rewrite set_has_add, String.eqb_refl. now rewrite orb_true_r. }
  assert (other : forall t x, x <> e ->
            set_has x (toggleEventExpansion e t) = set_has x t).
  { intros t x Hx. apply String.eqb_neq in Hx.
    unfold toggleEventExpansion. destruct (set_has e t).
    - rewrite set_has_delete, Hx. now rewrite andb_true_r.
    - rewrite set_has_add, Hx. now rewrite orb_false_r. }
  split; [apply flip|]. split; [apply other|].
  intros x. destruct (String.eqb_spec x e) as [->|Hx].
  - rewrite !flip. apply negb_involutive.
  - now rewrite !other.
Qed.

Lemma toggleEventExpansion_flips_witness :
  set_has "form_submit"
    (toggleEventExpansion "button_click" ["form_submit"; "button_click"])
  = true.
Proof.
  destruct (toggleEventExpansion_flips "button_click"
              ["form_submit"; "button_click"]) as (_ & H & _).
  rewrite H; [reflexivity|discriminate].
Defined.

End StoreMore.


(* ================================================================= *)
(** * More facts about strings *)

Module StringMore.
Import JsString BuilderSpec StringFacts.

Lemma slice0_length n s : String.length (slice0 n s) <= n.
Proof.
  unfold slice0. revert s. induction n as [|n IH]; intros s.
  - destruct s; cbn; lia.
  - destruct s as [|c s]; cbn; [lia|]. specialize (IH s). lia.
Qed.

Lemma slice0_whole n s : String.length s <= n -> slice0 n s = s.
Proof.
  unfold slice0. revert s. induction n as [|n IH]; intros s H.
  - destruct s; [reflexivity|cbn in H; lia].
  - destruct s as [|c s]; [reflexivity|].
    cbn in *. f_equal. apply IH. lia.
Qed.

Lemma lower_char_idem c : lower_char (lower_char c) = lower_char c.
Proof. destruct c as [[] [] [] [] [] [] [] []]; reflexivity. Qed.

Lemma toLowerCase_idem s : toLowerCase (toLowerCase s) = toLowerCase s.
Proof.
  induction s as [|c s IH]; [reflexivity|].
  cbn [toLowerCase]. now rewrite lower_char_idem, IH.
Qed.

Lemma prefix_app s t : prefix s (s ++ t) = true.
Proof.
  induction s as [|c s IH]; cbn; [now destruct t|].
  destruct (ascii_dec c c); [exact IH|congruence].
Qed.

(** [trim] leaves no white space at either end. *)
Lemma trimStart_clean s :
  truthy (trimStart s) = true -> starts_clean (trimStart s) = true.
Proof.
  induction s as [|c s IH]; cbn [trimStart]; [discriminate|].
  destruct (is_space c) eqn:E; [exact IH|].
  intros _. cbn [starts_clean]. now rewrite E.
Qed.

Lemma trimEnd_head c r :
  truthy (trimEnd (String c r)) = true ->
  exists r', trimEnd (String c r) = String c r'.
Proof.
  cbn [trimEnd]. destruct (trimEnd r) as [|c' r'].
  - destruct (is_space c); [discriminate|eauto].
  - eauto.
Qed.

Lemma trimEnd_clean s :
  truthy (trimEnd s) = true -> ends_clean (trimEnd s) = true.
Proof.
  induction s as [|c s IH]; cbn [trimEnd]; [discriminate|].
  destruct (trimEnd s) as [|c' r'].
  - destruct (is_space c) eqn:E; [discriminate|].
    intros _. cbn [ends_clean]. now rewrite E.
  - intros _. cbn [ends_clean]. apply IH. reflexivity.
Qed.

Lemma trim_clean s :
  truthy (trim s) = true ->
  starts_clean (trim s) = true /\ ends_clean (trim s) = true.
Proof.
  unfold trim. intros H. split; [|now apply trimEnd_clean].
  destruct (trimStart s) as [|c r] eqn:E; [discriminate|].
  destruct (trimEnd_head c r H) as [r' ->].
  assert (Hs : starts_clean (trimStart s) = true)
    by (apply trimStart_clean; now rewrite E).
  now rewrite E in Hs.
Qed.

(** The pieces between runs of white space hold no white space. *)
Lemma split_ws_from_ws_free b s :
  Forall (fun t => ws_free t = true) (split_ws_from b s).
Proof.
  revert b. induction s as [|c s IH]; intros b; cbn [split_ws_from].
  - repeat constructor.
  - destruct (is_space c) eqn:E.
    + destruct b; [apply IH|constructor; [reflexivity|apply IH]].
    + specialize (IH false).
      destruct (split_ws_from false s) as [|w ws].
      * repeat constructor. cbn [ws_free]. now rewrite E.
      * inversion IH as [|? ? Hw Hws]; subst.
        constructor; [|exact Hws]. cbn [ws_free]. now rewrite E, Hw.
Qed.

(** On a string that does not end in white space every piece but the
    first is non-empty, and the first is non-empty as well when the string
    does not follow or start with white space. *)
Lemma split_ws_from_nonempty b s :
  ends_clean s = true ->
  match split_ws_from b s with
  | [] => False
  | w :: ws =>
      (b = true \/ starts_clean s = true -> truthy w = true) /\
      Forall (fun t => truthy t = true) ws
  end.
Proof.
  revert b. induction s as [|c s IH]; intros b H; [discriminate|].
  cbn [split_ws_from].
  destruct s as [|c' r].
  - cbn [ends_clean] in H. apply negb_true_iff in H. rewrite H.
    cbn [split_ws_from]. split; [reflexivity|constructor].
  - assert (Hs : ends_clean (String c' r) = true) by exact H.
    destruct (is_space c) eqn:E.
    + specialize (IH true Hs).
      destruct (split_ws_from true (String c' r)) as [|w ws];
        [destruct IH|].
      destruct IH as [Hw Hws].
      destruct b.
      * split; [intros _; apply Hw; now left|exact Hws].
      * split.
        -- intros [Hb|Hc]; [discriminate|].
           cbn [starts_clean] in Hc. rewrite E in Hc. discriminate.
        -- constructor; [apply Hw; now left|exact Hws].
    + specialize (IH false Hs).
      destruct (split_ws_from false (String c' r)) as [|w ws];
        [destruct IH|].
      destruct IH as [_ Hws]. split; [reflexivity|exact Hws].
Qed.

(** The class tokens of a trimmed, non-empty class attribute. *)
Lemma split_ws_trim_tokens s :
  truthy (trim s) = true ->
  split_ws (trim s) <> [] /\
  Forall (fun t => truthy t = true /\ ws_free t = true) (split_ws (trim s)).
Proof.
  intros H. destruct (trim_clean s H) as [Hs He].
  pose proof (split_ws_from_nonempty false (trim s) He) as N.
  pose proof (split_ws_from_ws_free false (trim s)) as F.
  unfold split_ws.
  destruct (split_ws_from false (trim s)) as [|w ws]; [destruct N|].
  split; [discriminate|].
  destruct N as [Hw Hws]. inversion F as [|? ? Fw Fws]; subst.
  constructor; [split; [apply Hw; now right|exact Fw]|].
  rewrite Forall_forall in *. intros t Ht. split; auto.
Qed.

End StringMore.


(* ================================================================= *)
(** * More properties of the locator builder *)

Module BuilderMore.
Import JsString Dom Builder BuilderSpec StringFacts StringMore.

Lemma collect_elements_chain el acc :
  collect_elements el acc = (chain_from_root el ++ acc)%list.
Proof.
  revert acc. induction el as [|i p IH]; intros acc; [reflexivity|].
  cbn [collect_elements chain_from_root].
  now rewrite IH, <- app_assoc.
Qed.

(** The chain below the root, outermost first, is the ancestors at the
    distances [n - 1], ..., [0]. *)
Lemma chain_from_root_ancestors el :
  chain_from_root el
  = map (fun k => ancestor k el) (rev (seq 0 (List.length el))).
Proof.
  induction el as [|i p IH]; [reflexivity|].
  cbn [chain_from_root List.length].
  rewrite IH. cbn [seq rev map].
  rewrite <- seq_shift, <- map_rev, map_app, map_map. reflexivity.
Qed.

Lemma in_chain_from_root anc el :
  In anc (chain_from_root el) <->
  exists k, k < List.length el /\ anc = ancestor k el.
Proof.
  rewrite chain_from_root_ancestors, in_map_iff. split.
  - intros (k & <- & Hk). apply in_rev, in_seq in Hk.
    exists k. split; [lia|reflexivity].
  - intros (k & Hk & ->). exists k. split; [reflexivity|].
    apply in_rev. rewrite rev_involutive. apply in_seq. lia.
Qed.

(** X10.  The ancestor path names the root element first and then every
    element on the way down to the target, the target last: for a target
    [n] steps below the root it is the parts of the ancestors at the
    distances [n], [n - 1], ..., [0], joined by [" > "]. *)
Theorem getFullPathWithDataHooks_root_to_target root el :
  getFullPathWithDataHooks root el
  = join " > "
      (map (fun k => pathPart root (ancestor k el))
           (rev (seq 0 (S (List.length el))))).
Proof.
  unfold getFullPathWithDataHooks. f_equal.
  rewrite collect_elements_chain, app_nil_r, chain_from_root_ancestors.
  rewrite seq_S, rev_app_distr. cbn [rev app map plus].
  unfold ancestor at 2. rewrite skipn_all, map_map. reflexivity.
Qed.

Lemma dataHooks_loop_hooks root current level acc :
  dataHooks_loop root current level acc
  = (flat_map (hooks_at root (level + List.length current))
       (chain_from_root current) ++ acc)%list.
Proof.
  revert level acc. induction current as [|i p IH]; intros level acc;
    [reflexivity|].
  cbn [dataHooks_loop chain_from_root].
  rewrite IH, flat_map_app. cbn [flat_map List.length].
  rewrite app_nil_r, <- app_assoc.
  replace (S level + List.length p) with (level + S (List.length p)) by lia.
  f_equal. unfold hooks_at. cbn [List.length].
  replace (level + S (List.length p) - S (List.length p)) with level by lia.
  destruct (dataHook (attrs_of root (i :: p))) as [h|]; [|reflexivity].
  destruct (truthy h); reflexivity.
Qed.

(** X11.  The data attributes on the way to an element.  An entry is in
    [dataHooksPath] exactly when it describes an ancestor of the element
    below the root element, or the element itself, that carries a
    non-empty data attribute: its tag name lowercased, the value of the
    attribute, and as level the number of steps up from the element, so
    that the element itself has level 0. *)
Theorem getAllDataHooksInPath_entries root el e :
  In e (getAllDataHooksInPath root el) <->
  exists k h,
    k < List.length el /\
    dataHook (attrs_of root (ancestor k el)) = Some h /\
    truthy h = true /\
    e = hook_entry root el k h.
Proof.
  unfold getAllDataHooksInPath.
  rewrite dataHooks_loop_hooks, app_nil_r, in_flat_map. cbn [plus].
  split.
  - intros (anc & Hanc & He).
    apply in_chain_from_root in Hanc as (k & Hk & ->).
    unfold hooks_at in He.
    destruct (dataHook (attrs_of root (ancestor k el))) as [h|] eqn:Hd;
      [|destruct He].
    destruct (truthy h) eqn:Ht; [|destruct He].
    destruct He as [<-|[]].
    exists k, h. repeat split; try assumption.
    unfold hook_entry, ancestor. rewrite length_skipn.
    f_equal. lia.
  - intros (k & h & Hk & Hd & Ht & ->).
    exists (ancestor k el). split.
    + apply in_chain_from_root. eauto.
    + unfold hooks_at. rewrite Hd, Ht. left.
      unfold hook_entry, ancestor. rewrite length_skipn.
      f_equal. lia.
Qed.

Lemma firstn_Forall {A} (P : A -> Prop) n l :
  Forall P l -> Forall P (firstn n l).
Proof.
  intros H. revert n. induction H as [|x l Hx Hl IH]; intros [|n];
    cbn [firstn]; constructor; auto.
Qed.

(** X12.  The two-class limit of the ancestor path.  For an element
    without id and without data attribute, the part of the path is built
    from [className.toString()], trimmed: when that is not empty, the
    part is the tag name, a dot and the first two of its pieces between
    runs of white space, joined by a dot.  There is one piece at least
    and there are two at most, and each is non-empty and holds no white
    space.  For an element whose class name is a string the pieces are
    the first class tokens of the class attribute; for an element whose
    class name is an object, as on an SVG element, they are [[object] and
    [SVGAnimatedString]], whatever its class attribute. *)
Theorem pathPart_two_classes root el :
  let a := attrs_of root el in
  truthy (id a) = false ->
  truthy_opt (dataHook a) = false ->
  truthy (trim (className_toString (className a))) = true ->
  pathPart root el
  = toLowerCase (tagName a) ++ "." ++ join "." (path_classes a) /\
  1 <= List.length (path_classes a) <= 2 /\
  Forall (fun t => truthy t = true /\ ws_free t = true) (path_classes a) /\
  (forall value,
     className a = ClassString value ->
     path_classes a = firstn 2 (split_ws (trim value))) /\
  (forall baseVal,
     className a = SVGAnimatedString baseVal ->
     path_classes a = ["[object"; "SVGAnimatedString]"]).
Proof.
  cbn zeta. intros Hid Hdh Hc.
  unfold pathPart, path_classes. rewrite Hid, Hdh, Hc.
  destruct (split_ws_trim_tokens _ Hc) as [Hne Hall].
  split; [reflexivity|]. split; [|split; [|split]].
  - destruct (split_ws
                (trim (className_toString (className (attrs_of root el)))))
      as [|w [|w' ws]]; [congruence| |]; cbn; lia.
  - now apply firstn_Forall.
  - intros value ->. reflexivity.
  - intros baseVal ->. reflexivity.
Qed.

Lemma pathPart_two_classes_witness :
  pathPart Samples.shop Samples.shop_block = "div.a.b" /\
  pathPart Samples2.drawing Samples2.drawing_group
  = "g.[object.SVGAnimatedString]".
Proof.
  split.
  - exact (proj1 (pathPart_two_classes Samples.shop Samples.shop_block
                    eq_refl eq_refl eq_refl)).
  - exact (proj1 (pathPart_two_classes Samples2.drawing
                    Samples2.drawing_group eq_refl eq_refl eq_refl)).
Defined.

(** X13.  The text snippet of a locator is never longer than 50
    characters, so the panel shows it whole, between quotes, and never
    appends the ellipsis. *)
Theorem text_snippet_fits root el :
  let loc := getElementSelector root el in
  (forall t, Store.text loc = Some t ->
             truthy t = true /\ String.length t <= 50) /\
  Panel.renderedText loc
  = option_map (fun t => dquote ++ t ++ dquote) (Store.text loc).
Proof.
  cbn zeta. unfold Panel.renderedText.
  cbn [Store.text getElementSelector]. unfold or_undefined.
  set (t := slice0 50 (trim (textContent_of root el))).
  assert (L : String.length t <= 50) by apply slice0_length.
  destruct (truthy t) eqn:E.
  - split.
    + intros t' [= <-]. now split.
    + rewrite E. cbn [option_map]. rewrite (slice0_whole _ _ L).
      apply Nat.ltb_ge in L. now rewrite L.
  - split; [discriminate|reflexivity].
Qed.

Lemma text_snippet_fits_witness :
  Store.text (getElementSelector Samples.shop Samples.shop_button)
  = Some "Buy now" /\
  truthy "Buy now" = true /\ String.length "Buy now" <= 50.
Proof.
  split; [reflexivity|].
  apply (text_snippet_fits Samples.shop Samples.shop_button).
  reflexivity.
Defined.

Lemma append_nil_l s : "" ++ s = s.
Proof. reflexivity. Qed.

Lemma prefix_mid t x r : prefix (t ++ x) (t ++ x ++ r) = true.
Proof. rewrite <- append_assoc. apply prefix_app. Qed.

Lemma shown_or_undefined x f :
  Panel.shown (or_undefined x) f = if truthy x then f x else "".
Proof.
  unfold Panel.shown, or_undefined.
  destruct (truthy x) eqn:E; [now rewrite E|reflexivity].
Qed.

(** X14.  The label the panel shows for a mapping starts with the primary
    selector the builder gave it; the two are the same when the element
    has no id and no data attribute. *)
Theorem renderedSelector_extends_selector root el :
  let a := attrs_of root el in
  let loc := getElementSelector root el in
  prefix (Store.selector loc) (Panel.renderedSelector loc) = true /\
  (truthy (id a) = false -> truthy_opt (dataHook a) = false ->
   Panel.renderedSelector loc = Store.selector loc).
Proof.
  cbn zeta. unfold Panel.renderedSelector.
  cbn [Store.selector Store.tagName Store.id Store.dataHook Store.className
       getElementSelector].
  rewrite toLowerCase_idem, !shown_or_undefined.
  unfold primarySelector.
  set (tag := toLowerCase (tagName (attrs_of root el))).
  set (cls := trim (className_toString (className (attrs_of root el)))).
  destruct (truthy (id (attrs_of root el))) eqn:Hid.
  - split; [apply prefix_mid|discriminate].
  - destruct (dataHook (attrs_of root el)) as [h|] eqn:Hd;
      cbn [truthy_opt]; rewrite ?shown_or_undefined; cbn [Panel.shown];
      rewrite append_nil_l.
    + destruct (truthy h) eqn:Hh.
      * split; [apply prefix_mid|discriminate].
      * destruct (truthy cls); rewrite ?append_nil_l, ?append_nil_r;
          split; try reflexivity; apply BuilderFacts.prefix_refl.
    + destruct (truthy cls); rewrite ?append_nil_l, ?append_nil_r;
        split; try reflexivity; apply BuilderFacts.prefix_refl.
Qed.

Lemma renderedSelector_extends_selector_witness :
  Panel.renderedSelector
    (getElementSelector Samples.shop Samples.shop_block)
  = "div.a.b.c".
Proof.
  destruct (renderedSelector_extends_selector Samples.shop
              Samples.shop_block) as [_ H].
  rewrite H; reflexivity.
Defined.

(** X27.  The class of an SVG element is not read.  For an element
    without id and without data attribute whose class name is an object,
    as on an SVG element, the primary selector is the tag name followed
    by [.[object.SVGAnimatedString]], and the class name stored in the
    locator is [[object SVGAnimatedString]], whatever the class attribute
    of the element. *)
Theorem svg_class_is_not_read root el baseVal :
  let a := attrs_of root el in
  truthy (id a) = false ->
  truthy_opt (dataHook a) = false ->
  className a = SVGAnimatedString baseVal ->
  Store.selector (getElementSelector root el)
  = toLowerCase (tagName a) ++ ".[object.SVGAnimatedString]" /\
  Store.className (getElementSelector root el)
  = Some "[object SVGAnimatedString]".
Proof.
  cbn zeta. intros Hid Hdh Hc.
  cbn [Store.selector Store.className getElementSelector].
  unfold primarySelector. rewrite Hid, Hdh, Hc. split; reflexivity.
Qed.

Lemma svg_class_is_not_read_witness :
  Store.selector (getElementSelector Samples2.drawing Samples2.drawing_group)
  = "g.[object.SVGAnimatedString]".
Proof.
  exact (proj1 (svg_class_is_not_read Samples2.drawing
                  Samples2.drawing_group "bars" eq_refl eq_refl eq_refl)).
Defined.

End BuilderMore.


(* ================================================================= *)
(** * The life of a selection session *)

Module LifecycleFacts.
Import JsString Dom Session Lifecycle.

Lemma messages_app a b : messages (a ++ b) = (messages a ++ messages b)%list.
Proof.
  induction a as [|e a IH]; [reflexivity|].
  destruct e; cbn [messages app]; rewrite IH; reflexivity.
Qed.

Lemma after_effects_app live a b :
  after_effects live (a ++ b) = after_effects (after_effects live a) b.
Proof. apply fold_left_app. Qed.

Lemma in_without x el live :
  In x (without el live) <-> In x live /\ x <> el.
Proof.
  unfold without. rewrite filter_In, negb_true_iff.
  split; intros [H1 H2]; split; try assumption.
  - intros ->. rewrite (proj2 (SessionFacts.same_element_iff el el)) in H2
      by reflexivity. discriminate.
  - destruct (same_element x el) eqn:E; [|reflexivity].
    apply SessionFacts.same_element_iff in E. contradiction.
Qed.

Lemma nothing_in l : (forall x : Element, ~ In x l) -> l = [].
Proof.
  destruct l as [|y l]; [reflexivity|].
  intros H. destruct (H y). now left.
Qed.

Lemma messages_cleanup s : messages (snd (cleanupSelection s)) = [].
Proof. cbn. now destruct (currentHighlight s). Qed.

(** The teardown takes the overlay, the banner and the current highlight
    out of the document. *)
Lemma after_cleanup s live :
  isSelecting s = true ->
  artifacts_ok s live ->
  after_effects live (snd (cleanupSelection s)) = [].
Proof.
  unfold artifacts_ok. intros Hs Hok. rewrite Hs in Hok.
  cbn [cleanupSelection snd]. rewrite after_effects_app.
  cbn [after_effects fold_left after_effect].
  apply nothing_in. intros x Hx.
  apply in_without in Hx as [Hx Hbn].
  apply in_without in Hx as [Hx Hov].
  assert (Hlive : In x live /\ currentHighlight s <> Some x).
  { destruct (currentHighlight s) as [h|];
      cbn [fold_left after_effect] in Hx.
    - apply in_without in Hx as [Hx Hh]. split; [exact Hx|congruence].
    - split; [exact Hx|discriminate]. }
  destruct Hlive as [Hin Hh].
  destruct (Hok x Hin) as [?|[?|?]]; contradiction.
Qed.

(** The highlight replaces the one before it. *)
Lemma after_createHighlight pg fresh s element live :
  isSelecting s = true ->
  artifacts_ok s live ->
  artifacts_ok (fst (createHighlight pg fresh s element))
    (after_effects live (snd (createHighlight pg fresh s element))).
Proof.
  unfold artifacts_ok. intros Hs Hok. rewrite Hs in Hok.
  cbn [createHighlight fst snd isSelecting overlay banner currentHighlight].
  rewrite Hs, after_effects_app.
  cbn [after_effects fold_left after_effect].
  intros x [<-|Hx]; [now right; right|].
  apply in_without in Hx as [Hx Hfresh].
  assert (Hlive : In x live /\ currentHighlight s <> Some x).
  { destruct (currentHighlight s) as [h|];
      cbn [fold_left after_effect] in Hx.
    - apply in_without in Hx as [Hx Hh]. split; [exact Hx|congruence].
    - split; [exact Hx|discriminate]. }
  destruct Hlive as [Hin Hh].
  destruct (Hok x Hin) as [?|[?|?]]; [now left|now right; left|contradiction].
Qed.

(** A session that has ended hears nothing. *)
Lemma deliver_inert s ev :
  consistent s -> isSelecting s = false -> deliver s ev = (s, []).
Proof.
  intros (_ & _ & Hl) Hs. unfold deliver. rewrite Hl, Hs. reflexivity.
Qed.

Lemma run_inert s evs :
  consistent s -> isSelecting s = false -> run s evs = (s, []).
Proof.
  intros Hc Hs. induction evs as [|ev evs IH]; [reflexivity|].
  cbn [run]. rewrite (deliver_inert _ _ Hc Hs), IH. reflexivity.
Qed.

Lemma consistent_cleanup s : consistent (fst (cleanupSelection s)).
Proof. repeat split. Qed.

(** One event in an armed session. *)
Lemma deliver_armed s ev :
  consistent s -> isSelecting s = true ->
  consistent (fst (deliver s ev)) /\
  same_session s (fst (deliver s ev)) /\
  List.length (messages (snd (deliver s ev)))
  = (if isSelecting (fst (deliver s ev)) then 0 else 1) /\
  Forall (of_session (eventId s)) (messages (snd (deliver s ev))) /\
  (forall live,
     artifacts_ok s live ->
     artifacts_ok (fst (deliver s ev))
       (after_effects live (snd (deliver s ev)))).
Proof.
  intros Hc Hs. pose proof Hc as (Ha & Hr & Hl).
  assert (Same : same_session s s) by repeat split.
  assert (Keep : forall fx,
            messages fx = [] ->
            (forall live, after_effects live fx = live) ->
            consistent s /\ same_session s s /\
            List.length (messages fx) = (if isSelecting s then 0 else 1) /\
            Forall (of_session (eventId s)) (messages fx) /\
            (forall live, artifacts_ok s live ->
                          artifacts_ok s (after_effects live fx))).
  { intros fx Hm Hfx. rewrite Hm, Hs. repeat split; try assumption.
    - constructor.
    - intros live Hok. now rewrite Hfx. }
  unfold deliver. rewrite Hl, Hs.
  destruct ev as [pg fresh e|pg e|key]; cbn [listener_of existsb same_listener
                                               orb].
  - unfold handleMouseMove. rewrite Hs. cbn [negb].
    destruct (getTargetElement pg s (clientX e) (clientY e)
                (ctrlKey e || metaKey e)) as [err|[element|]];
      [apply Keep; reflexivity| |].
    + pose proof (after_createHighlight pg fresh s element) as Hhl.
      cbn [createHighlight fst snd] in *.
      split.
      { unfold consistent.
        cbn [selectorActive isSelecting cleanupRegistered listeners].
        rewrite Hs in *. repeat split; assumption. }
      split; [repeat split|].
      cbn [isSelecting messages]. rewrite messages_app.
      rewrite Hs in Hhl |- *.
      split; [now destruct (currentHighlight s)|].
      split; [destruct (currentHighlight s); constructor|].
      intros live Hok. unfold after_effects in *.
      cbn [fold_left after_effect]. now apply Hhl.
    + apply Keep; [reflexivity|reflexivity].
  - unfold handleClick. rewrite Hs. cbn [negb].
    destruct (getTargetElement pg s (clientX e) (clientY e)
                (ctrlKey e || metaKey e)) as [err|[element|]];
      [apply Keep; reflexivity| |].
    + cbn [cleanupSelection fst snd isSelecting].
      split; [repeat split|]. split; [repeat split|].
      cbn [messages]. rewrite messages_app.
      split; [now destruct (currentHighlight s)|].
      split.
      * destruct (currentHighlight s); repeat constructor.
      * intros live Hok. unfold artifacts_ok at 1. cbn [isSelecting].
        change (after_effects live (snd (cleanupSelection s)) = []).
        now apply after_cleanup.
    + apply Keep; [reflexivity|reflexivity].
  - unfold handleKeyDown.
    destruct (String.eqb key "Escape").
    + cbn [cleanupSelection fst snd isSelecting].
      split; [repeat split|]. split; [repeat split|].
      cbn [messages]. rewrite messages_app.
      split; [now destruct (currentHighlight s)|].
      split.
      * destruct (currentHighlight s); repeat constructor.
      * intros live Hok. unfold artifacts_ok at 1. cbn [isSelecting].
        change (after_effects live (snd (cleanupSelection s)) = []).
        now apply after_cleanup.
    + apply Keep; [reflexivity|reflexivity].
Qed.

(** A run from an armed state. *)
Lemma run_armed evs : forall s,
  consistent s -> isSelecting s = true ->
  consistent (fst (run s evs)) /\
  same_session s (fst (run s evs)) /\
  List.length (messages (snd (run s evs)))
  = (if isSelecting (fst (run s evs)) then 0 else 1) /\
  Forall (of_session (eventId s)) (messages (snd (run s evs))) /\
  (forall live,
     artifacts_ok s live ->
     artifacts_ok (fst (run s evs)) (after_effects live (snd (run s evs)))).
Proof.
  induction evs as [|ev evs IH]; intros s Hc Hs.
  - cbn [run fst snd messages]. rewrite Hs.
    repeat split; try apply Hc; try constructor.
    intros live Hok. exact Hok.
  - cbn [run].
    destruct (deliver_armed s ev Hc Hs) as (Hc1 & Hsame1 & Hn1 & Hm1 & Ha1).
    destruct (deliver s ev) as [s1 fx1]. cbn [fst snd] in *.
    destruct (isSelecting s1) eqn:Hs1.
    + specialize (IH s1 Hc1 Hs1).
      destruct IH as (Hc2 & Hsame2 & Hn2 & Hm2 & Ha2).
      destruct (run s1 evs) as [s2 fx2]. cbn [fst snd] in *.
      destruct Hsame1 as (E1 & E2 & E3), Hsame2 as (F1 & F2 & F3).
      split; [exact Hc2|]. split; [repeat split; congruence|].
      rewrite messages_app, length_app, Hn1, Hn2.
      split; [reflexivity|]. split.
      * apply Forall_app. split; [exact Hm1|]. now rewrite <- E1.
      * intros live Hok. rewrite after_effects_app. auto.
    + rewrite (run_inert s1 evs Hc1 Hs1). cbn [fst snd].
      rewrite app_nil_r, Hs1.
      split; [exact Hc1|]. split; [exact Hsame1|].
      split; [exact Hn1|]. split; [exact Hm1|].
      intros live Hok. now apply Ha1.
Qed.

Lemma consistent_armed ev ov bn : consistent (armed ev ov bn).
Proof. repeat split. Qed.

(** X15.  The flags of a session move together.  In every state that a
    session reaches from arming, whatever the events, the flag on
    [window], the registration of the cleanup and the presence of the
    three listeners all agree with [isSelecting]; and the event, the
    overlay and the banner of the session are those it was armed with. *)
Theorem session_flags_move_together ev ov bn evs :
  consistent (fst (run (armed ev ov bn) evs)) /\
  same_session (armed ev ov bn) (fst (run (armed ev ov bn) evs)).
Proof.
  destruct (run_armed evs (armed ev ov bn) (consistent_armed ev ov bn)
              eq_refl) as (H1 & H2 & _).
  now split.
Qed.

(** X16.  A session sends one message in its life.  Over any sequence of
    events it has sent nothing while it is still armed and exactly one
    message once it has ended; the message is the cancellation or a
    selection for the event the session was armed with.  After it has
    ended no event changes it or has any effect. *)
Theorem session_sends_one_message ev ov bn evs :
  let r := run (armed ev ov bn) evs in
  List.length (messages (snd r)) = (if isSelecting (fst r) then 0 else 1) /\
  Forall (of_session ev) (messages (snd r)) /\
  (isSelecting (fst r) = false ->
   forall more, run (fst r) more = (fst r, [])).
Proof.
  cbn zeta.
  destruct (run_armed evs (armed ev ov bn) (consistent_armed ev ov bn)
              eq_refl) as (Hc & _ & Hn & Hm & _).
  split; [exact Hn|]. split; [exact Hm|].
  intros Hs more. now apply run_inert.
Qed.

Lemma session_sends_one_message_witness :
  run (fst (run Samples.shop_session Samples2.click_then_more))
    [KeyPressed "Escape"]
  = (fst (run Samples.shop_session Samples2.click_then_more), []).
Proof.
  apply (session_sends_one_message "button_click" [4; 2] [5; 2]
           Samples2.click_then_more).
  reflexivity.
Defined.

(** X17.  A session leaves nothing behind.  Of the elements it puts into
    the document, only the overlay, the banner and the current highlight
    are there while it is armed, every earlier highlight having been
    removed; and none is there once it has ended, whether by a click or
    by Escape. *)
Theorem session_leaves_nothing ev ov bn evs :
  let r := run (armed ev ov bn) evs in
  let live := after_effects [ov; bn] (snd r) in
  (isSelecting (fst r) = false -> live = []) /\
  (isSelecting (fst r) = true ->
   forall x, In x live ->
             x = ov \/ x = bn \/ currentHighlight (fst r) = Some x).
Proof.
  cbn zeta.
  destruct (run_armed evs (armed ev ov bn) (consistent_armed ev ov bn)
              eq_refl) as (_ & (_ & E2 & E3) & _ & _ & Ha).
  specialize (Ha [ov; bn]).
  assert (Hok : artifacts_ok (armed ev ov bn) [ov; bn]).
  { unfold artifacts_ok. cbn [isSelecting armed overlay banner].
    intros x [<-|[<-|[]]]; auto. }
  specialize (Ha Hok). unfold artifacts_ok in Ha.
  cbn [overlay banner armed] in E2, E3.
  split; intros Hs; rewrite Hs in Ha; [exact Ha|].
  intros x Hx. specialize (Ha x Hx). rewrite E2, E3 in Ha. exact Ha.
Qed.

Lemma session_leaves_nothing_witness :
  after_effects [[4; 2]; [5; 2]]
    (snd (run Samples.shop_session Samples2.click_then_more))
  = [].
Proof.
  apply (session_leaves_nothing "button_click" [4; 2] [5; 2]
           Samples2.click_then_more).
  reflexivity.
Defined.



(** X19.  Deselecting an event in the panel does not end the session on
    the page.  The store clears the selection and the injected function
    removes elements from the document, but the session keeps its state
    and its listeners: the next click on an element of the page still
    sends the selection, and the panel then stores a mapping for the
    deselected event. *)
Theorem deselect_leaves_session_armed pg s e element tabId now st :
  consistent s -> isSelecting s = true ->
  getTargetElement pg s (clientX e) (clientY e) (ctrlKey e || metaKey e)
  = inr (Some element) ->
  Store.selectedEventId st = Some (eventId s) ->
  let st1 := fst (Panel.handleEventClick tabId (eventId s) st) in
  let s1 := fst (injectedCleanup s) in
  let sent :=
    ELEMENT_SELECTED (eventId s)
      (Builder.getElementSelector (root pg) element) (href pg) in
  Store.selectedEventId st1 = None /\
  Store.isSelecting st1 = false /\
  s1 = s /\
  messages (snd (deliver s1 (Clicked pg e))) = [sent] /\
  Panel.hasMapping (Store.mappings (handleMessage now sent st1))
    (href pg) (eventId s) = true.
Proof.
  intros (_ & _ & Hl) Hs Ht Hsel. cbn zeta.
  cbn [injectedCleanup fst].
  split.
  { unfold Panel.handleEventClick, Panel.isSelected.
    now rewrite Hsel, String.eqb_refl. }
  split.
  { unfold Panel.handleEventClick, Panel.isSelected.
    now rewrite Hsel, String.eqb_refl. }
  split; [reflexivity|]. split.
  - unfold deliver. rewrite Hl, Hs.
    cbn [listener_of existsb same_listener orb].
    unfold handleClick. rewrite Hs, Ht. cbn [negb].
    cbn [cleanupSelection snd messages]. rewrite messages_app.
    now destruct (currentHighlight s).
  - cbn [handleMessage]. apply StoreMore.addMapping_hasMapping.
Qed.

Lemma deselect_leaves_session_armed_witness :
  Panel.hasMapping
    (Store.mappings
       (handleMessage 42
          (ELEMENT_SELECTED "button_click"
             (Builder.getElementSelector Samples.shop Samples.shop_button)
             Samples.page_url)
          (fst (Panel.handleEventClick (Some 7) "button_click"
                  (Store.selectEvent (Some "button_click")
                     Store.defaultState)))))
    Samples.page_url "button_click"
  = true.
Proof.
  apply (deselect_leaves_session_armed Samples.shop_page
           Samples.shop_session (Samples.click_at 10 10 false)
           Samples.shop_button (Some 7) 42
           (Store.selectEvent (Some "button_click") Store.defaultState)).
  - repeat split.
  - reflexivity.
  - reflexivity.
  - reflexivity.
Defined.

End LifecycleFacts.


(* ================================================================= *)
(** * More properties of the locator resolver *)

Module ResolverMore.
Import JsString Dom Resolver ResolverSpec.

Ltac close_lookup :=
  first
    [ exists (@nil Effect); split; [now rewrite app_nil_r|reflexivity]
    | rewrite <- ?app_assoc; eexists; split; reflexivity ].

(** One warning for each attempt that threw. *)
Lemma resolve_warnings doc sel l :
  exists fx,
    resolve doc sel l
    = (inr (snd (first_hit doc (strategies sel))), (l ++ fx)%list) /\
    List.length (filter is_warning fx)
    = List.length
        (filter (throws doc) (fst (first_hit doc (strategies sel)))).
Proof.
  unfold resolve, strategies, bind, try_catch, call, emit, ret.
  destruct (getElementById doc (text_of (Store.id sel)))
    as [?|] eqn:H1;
  destruct (querySelector doc
              (dataHookQuery (text_of (Store.dataHook sel))))
    as [?|[?|]] eqn:H2;
  destruct (querySelector doc (Store.selector sel)) as [?|[?|]] eqn:H3;
  destruct (evaluate doc (Store.xpath sel)) as [?|[?|]] eqn:H4;
  destruct (truthy_opt (Store.id sel)),
           (truthy_opt (Store.dataHook sel)),
           (truthy (Store.selector sel)),
           (truthy (Store.xpath sel));
  repeat progress
    (cbn [first_hit yield throws filter app fst snd is_null andb];
     rewrite ?H1, ?H2, ?H3, ?H4);
  close_lookup.
Qed.

Lemma filter_nothing {A} (f : A -> bool) l :
  Forall (fun x => f x = false) l -> filter f l = [].
Proof.
  induction 1 as [|x l Hx Hl IH]; [reflexivity|].
  cbn [filter]. now rewrite Hx.
Qed.

(** X20.  [console.warn] is called once for each strategy that was
    attempted and threw, and for nothing else; a locator none of whose
    strategies throws is resolved without a warning. *)
Theorem resolve_warns_once_per_throw doc sel l :
  exists fx,
    resolve doc sel l
    = (inr (snd (first_hit doc (strategies sel))), (l ++ fx)%list) /\
    List.length (filter is_warning fx)
    = List.length
        (filter (throws doc) (fst (first_hit doc (strategies sel)))) /\
    (Forall (fun c => throws doc c = false) (strategies sel) ->
     filter is_warning fx = []).
Proof.
  destruct (resolve_warnings doc sel l) as (fx & Hrun & Hn).
  exists fx. split; [exact Hrun|]. split; [exact Hn|].
  intros Hall.
  destruct (ResolverFacts.first_hit_shape doc (strategies sel))
    as (rest & Hs & _).
  rewrite Hs in Hall. apply Forall_app in Hall as [Hall _].
  rewrite (filter_nothing _ _ Hall) in Hn.
  destruct (filter is_warning fx); [reflexivity|discriminate].
Qed.

Lemma resolve_warns_once_per_throw_witness :
  exists fx,
    resolve Samples2.same_page
      (Builder.getElementSelector Samples.shop Samples.shop_button) []
    = (inr (Some Samples.shop_button), fx) /\
    filter is_warning fx = [].
Proof.
  destruct (resolve_warns_once_per_throw Samples2.same_page
              (Builder.getElementSelector Samples.shop Samples.shop_button)
              []) as (fx & Hrun & _ & Hnone).
  exists fx. split; [exact Hrun|].
  apply Hnone. vm_compute. repeat constructor.
Defined.

(** X21.  What [highlightElement] shows when the resolution finds a
    node.  A highlight left over from an earlier call is removed before
    anything is looked up, and no error banner is shown.  When the node
    found is an element, the routine returns, and it ends by scrolling
    the element into view and scheduling its highlight.  When the node
    found is no element, as a text node that an XPath expression yields,
    the routine throws at [scrollIntoView] and shows nothing. *)
Theorem highlightElement_shows_the_element doc sel l :
  exists fx,
    snd (highlightElement doc sel l) = (l ++ fx)%list /\
    (forall h,
       getElementById doc highlighterId = Some h ->
       exists rest,
         fx = Called (GetElementById highlighterId) :: Removed h :: rest) /\
    (forall t,
       snd (first_hit doc (strategies sel)) = Some t ->
       Forall (fun e => is_error_banner e = false) fx /\
       (isElementNode doc t = true ->
        fst (highlightElement doc sel l) = inr tt /\
        exists fx',
          fx = (fx' ++ [ScrollIntoView t; HighlightLater t])%list) /\
       (isElementNode doc t = false ->
        fst (highlightElement doc sel l)
        = inl scrollIntoView_is_not_a_function /\
        Forall (fun e => is_found_effect e = false) fx)).
Proof.
  destruct (ResolverFacts.highlightElement_run doc sel l)
    as (fxr & _ & Hfx & Hrun).
  eexists. rewrite Hrun. cbn [fst snd]. split; [reflexivity|]. split.
  - intros h Hh. rewrite Hh. cbn [app]. eauto.
  - intros t Ht. rewrite Ht. cbn [ending].
    assert (Pre : forall f : Effect -> bool,
              (forall c, f (Called c) = false) ->
              (forall h, f (Removed h) = false) ->
              (forall a b, f (Warned a b) = false) ->
              Forall (fun e => f e = false)
                ((Called (GetElementById highlighterId)
                  :: match getElementById doc highlighterId with
                     | Some h => [Removed h]
                     | None => []
                     end) ++ fxr)).
    { intros f Hc Hr Hw. apply Forall_app. split.
      - destruct (getElementById doc highlighterId); repeat constructor;
          auto.
      - eapply Forall_impl; [|exact Hfx].
        intros e He. destruct e; try discriminate; auto. }
    destruct (isElementNode doc t); cbn [fst snd].
    + split; [|split; [|discriminate]].
      * rewrite app_assoc. apply Forall_app. split; [|repeat constructor].
        apply Pre; reflexivity.
      * intros _. split; [reflexivity|].
        eexists. rewrite app_assoc. reflexivity.
    + rewrite app_nil_r. split; [apply Pre; reflexivity|].
      split; [discriminate|].
      intros _. split; [reflexivity|apply Pre; reflexivity].
Qed.

Lemma highlightElement_shows_the_element_witness :
  fst (highlightElement Samples.moved_page Samples.stale_locator [])
  = inr tt /\
  fst (highlightElement Samples2.text_node_page Samples.stale_locator [])
  = inl scrollIntoView_is_not_a_function.
Proof.
  split.
  - destruct (highlightElement_shows_the_element Samples.moved_page
                Samples.stale_locator []) as (fx & _ & _ & Hfound).
    apply (Hfound Samples.shop_block); reflexivity.
  - destruct (highlightElement_shows_the_element Samples2.text_node_page
                Samples.stale_locator []) as (fx & _ & _ & Hfound).
    apply (Hfound [0; 0; 2]); reflexivity.
Defined.

Lemma truthy_getXPath root el : truthy (Builder.getXPath root el) = true.
Proof.
  unfold Builder.getXPath.
  destruct (truthy (id (attrs_of root el))); reflexivity.
Qed.

(** X22.  A locator from the builder can always fall back on its XPath:
    the xpath is never empty and starts with a slash, so the XPath
    evaluation is the last of the strategies of the locator, after the
    strategies by id, data attribute and primary selector that it has. *)
Theorem built_locator_has_xpath_strategy root el :
  let loc := Builder.getElementSelector root el in
  prefix "/" (Store.xpath loc) = true /\
  strategies loc = (before_xpath loc ++ [Evaluate (Store.xpath loc)])%list.
Proof.
  cbn zeta. split.
  - cbn [Store.xpath Builder.getElementSelector]. unfold Builder.getXPath.
    destruct (truthy (id (attrs_of root el))); reflexivity.
  - apply ResolverFacts.strategies_split.
    cbn [Store.xpath Builder.getElementSelector]. apply truthy_getXPath.
Qed.

(** X23.  Round trip by id or by data attribute.  When the id of an
    element still resolves to the element, its locator resolves to it by
    the id lookup alone.  When the element has no id and the query for
    its data attribute still yields it, its locator resolves to it by
    that query alone. *)
Theorem built_locator_round_trip root el doc l :
  let a := attrs_of root el in
  let loc := Builder.getElementSelector root el in
  (truthy (id a) = true ->
   getElementById doc (id a) = Some el ->
   exists fx,
     resolve doc loc l = (inr (Some el), (l ++ fx)%list) /\
     calls_of fx = [GetElementById (id a)]) /\
  (truthy (id a) = false ->
   forall h,
     dataHook a = Some h -> truthy h = true ->
     querySelector doc (dataHookQuery h) = inr (Some el) ->
     exists fx,
       resolve doc loc l = (inr (Some el), (l ++ fx)%list) /\
       calls_of fx = [QuerySelector (dataHookQuery h)]).
Proof.
  cbn zeta.
  destruct (ResolverFacts.resolve_run doc
              (Builder.getElementSelector root el) l)
    as (fx & Hrun & Hcalls & _).
  split.
  - intros Hid Hget. exists fx.
    assert (E : first_hit doc
                  (strategies (Builder.getElementSelector root el))
                = ([GetElementById (id (attrs_of root el))], Some el)).
    { unfold strategies.
      cbn [Store.id Builder.getElementSelector]. unfold or_undefined.
      rewrite Hid. cbn [truthy_opt text_of app first_hit yield].
      rewrite Hid. cbn [app first_hit yield]. now rewrite Hget. }
    rewrite E in Hrun, Hcalls. now split.
  - intros Hid h Hd Hh Hq. exists fx.
    assert (E : first_hit doc
                  (strategies (Builder.getElementSelector root el))
                = ([QuerySelector (dataHookQuery h)], Some el)).
    { unfold strategies.
      cbn [Store.id Store.dataHook Builder.getElementSelector].
      unfold or_undefined. rewrite Hid, Hd, Hh.
      cbn [truthy_opt text_of app first_hit yield].
      rewrite Hh. cbn [app first_hit yield]. now rewrite Hq. }
    rewrite E in Hrun, Hcalls. now split.
Qed.

Lemma built_locator_round_trip_witness :
  (exists fx,
     resolve Samples2.same_page
       (Builder.getElementSelector Samples.shop Samples.shop_button) []
     = (inr (Some Samples.shop_button), fx) /\
     calls_of fx = [GetElementById "cta"]) /\
  (exists fx,
     resolve Samples2.card_page
       (Builder.getElementSelector Samples.cards Samples.card_section) []
     = (inr (Some Samples.card_section), fx) /\
     calls_of fx = [QuerySelector (dataHookQuery "card")]).
Proof.
  split.
  - destruct (built_locator_round_trip Samples.shop Samples.shop_button
                Samples2.same_page []) as [H _].
    apply H; reflexivity.
  - destruct (built_locator_round_trip Samples.cards Samples.card_section
                Samples2.card_page []) as [_ H].
    apply (H eq_refl "card"); reflexivity.
Defined.

End ResolverMore.


(* ================================================================= *)
(** * More properties of the target and of the messages *)

Module SessionMore.
Import JsString Dom Session BuilderSpec.

(** What the upward walk visits: ancestors, none of them the body and
    none of them above it. *)
Lemma visited_from_in root cur x :
  In x (visited_from root cur) ->
  exists j,
    j <= List.length cur /\ x = skipn j cur /\
    forall i, i <= j -> is_body root (skipn i cur) = false.
Proof.
  induction cur as [|a q IH]; cbn [visited_from].
  - destruct (is_body root []) eqn:B; [intros []|].
    intros [<-|[]]. exists 0. split; [cbn; lia|]. split; [reflexivity|].
    intros i Hi. now destruct i.
  - destruct (is_body root (a :: q)) eqn:B; [intros []|].
    intros [<-|Hx].
    + exists 0. split; [cbn; lia|]. split; [reflexivity|].
      intros i Hi. assert (i = 0) as -> by lia. exact B.
    + destruct (IH Hx) as (j & Hj & -> & Hb).
      exists (S j). split; [cbn; lia|]. split; [reflexivity|].
      intros [|i] Hi; [exact B|]. apply Hb. lia.
Qed.

(** What the walk returns is the candidate it started with or an
    ancestor it has visited. *)
Lemma parent_walk_returns root element current best t :
  parent_walk root element current best = inr t ->
  t = best \/ In t (visited_from root current).
Proof.
  revert best. induction current as [|i p IH]; intros best;
    cbn [parent_walk visited_from].
  - destruct (is_body root []); [intros [= <-]; now left|].
    destruct (hasDataHook (attrs_of root []));
      [intros [= <-]; right; now left|].
    destruct (className (attrs_of root [])) as [c|b]; [|discriminate].
    destruct (container_name c); [intros [= <-]; right; now left|].
    destruct (significantly_larger _ _); intros [= <-];
      [right; now left|now left].
  - destruct (is_body root (i :: p)); [intros [= <-]; now left|].
    destruct (hasDataHook (attrs_of root (i :: p)));
      [intros [= <-]; right; now left|].
    destruct (className (attrs_of root (i :: p))) as [c|b]; [|discriminate].
    destruct (container_name c); [intros [= <-]; right; now left|].
    intros H. apply IH in H as [->|H]; [|right; now right].
    destruct (significantly_larger _ _); [right; now left|now left].
Qed.

Lemma meaningful_parent_ancestor root element t :
  meaningful_parent root element = inr t ->
  exists k,
    k <= List.length element /\
    t = ancestor k element /\
    forall j, 1 <= j <= k -> is_body root (ancestor j element) = false.
Proof.
  assert (Self : exists k,
            k <= List.length element /\ element = ancestor k element /\
            forall j, 1 <= j <= k ->
                      is_body root (ancestor j element) = false).
  { exists 0. split; [lia|]. split; [reflexivity|].
    intros j Hj. lia. }
  unfold meaningful_parent.
  destruct element as [|i p]; cbn [parentElement].
  - intros [= <-]. exact Self.
  - intros H. apply parent_walk_returns in H as [->|Ht]; [exact Self|].
    destruct (visited_from_in _ _ _ Ht) as (j & Hj & -> & Hb).
    exists (S j). split; [cbn; lia|]. split; [reflexivity|].
    intros [|j'] Hj'; [lia|]. apply Hb. lia.
Qed.

(** X24.  With the modifier key held, a target that [getTargetElement]
    returns is the element under the pointer or one of its ancestors,
    never an element off that chain, and no element from the parent of
    the hovered element up to the target is [document.body].  So a target
    above the hovered element is never the body, and for a hovered
    element inside the body the target is inside the body as well.  The
    body itself, and the root element, can be the target only of an
    element that is the body or is outside it. *)
Theorem widened_target_is_an_ancestor pg s x y target :
  getTargetElement pg s x y true = inr (Some target) ->
  exists element k,
    elementFromPoint pg x y = Some element /\
    infrastructure s element = false /\
    k <= List.length element /\
    target = ancestor k element /\
    (forall j, 1 <= j <= k ->
               is_body (root pg) (ancestor j element) = false) /\
    (1 <= k -> is_body (root pg) target = false) /\
    (forall j, 1 <= j ->
               is_body (root pg) (ancestor j element) = true -> k < j).
Proof.
  unfold getTargetElement.
  destruct (elementFromPoint pg x y) as [element|]; [|discriminate].
  destruct (infrastructure s element) eqn:Hinf; [discriminate|].
  destruct (meaningful_parent (root pg) element) as [err|t] eqn:Hm;
    [discriminate|].
  intros [= <-].
  destruct (meaningful_parent_ancestor (root pg) element t Hm)
    as (k & Hk & -> & Hb).
  exists element, k. repeat split; try assumption.
  - intros Hk1. apply Hb. lia.
  - intros j Hj Hbody.
    destruct (Nat.lt_ge_cases k j) as [|Hge]; [assumption|].
    rewrite Hb in Hbody by lia. discriminate.
Qed.

Lemma widened_target_is_an_ancestor_witness :
  exists element k,
    elementFromPoint Samples.cards_page 10 10 = Some element /\
    infrastructure Samples.cards_session element = false /\
    k <= List.length element /\
    Samples.card_section = ancestor k element /\
    (forall j, 1 <= j <= k ->
               is_body (root Samples.cards_page) (ancestor j element)
               = false) /\
    (1 <= k -> is_body (root Samples.cards_page) Samples.card_section
               = false) /\
    (forall j, 1 <= j ->
               is_body (root Samples.cards_page) (ancestor j element) = true ->
               k < j).
Proof.
  apply (widened_target_is_an_ancestor Samples.cards_page
           Samples.cards_session 10 10 Samples.card_section).
  reflexivity.
Defined.

(** X25.  A message that reaches the panel twice is handled once: the
    second delivery of a selection finds the mapping of the first and
    adds nothing, whatever the clock says, and the second delivery of a
    cancellation finds the selection cleared. *)
Theorem handleMessage_twice now now' m st :
  handleMessage now' m (handleMessage now m st) = handleMessage now m st.
Proof.
  destruct m as [ev el u|]; cbn [handleMessage].
  - apply StoreFacts.addMapping_twice.
  - reflexivity.
Qed.

(** X26.  The upward walk throws at an SVG parent.  With the modifier key
    held over an element whose parent is not the body, carries no data
    attribute and has an object for its class name, as an SVG element
    has, [getTargetElement] throws a [TypeError].  A click then does no
    more than stop the event: nothing is sent and the session stays as it
    was; a mouse move does no more than update the banner. *)
Theorem widening_throws_at_svg_parent pg s e i parent baseVal :
  isSelecting s = true ->
  ctrlKey e || metaKey e = true ->
  elementFromPoint pg (clientX e) (clientY e) = Some (i :: parent) ->
  infrastructure s (i :: parent) = false ->
  is_body (root pg) parent = false ->
  hasDataHook (attrs_of (root pg) parent) = false ->
  className (attrs_of (root pg) parent) = SVGAnimatedString baseVal ->
  getTargetElement pg s (clientX e) (clientY e) true
  = inl includes_is_not_a_function /\
  handleClick pg s e
  = (s, [PreventDefault; StopPropagation;
         Uncaught includes_is_not_a_function]) /\
  forall fresh,
    handleMouseMove pg fresh s e
    = (s, [SetBanner true; Uncaught includes_is_not_a_function]).
Proof.
  intros Hsel Hmod Hhit Hinf Hb Hd Hc.
  assert (T : getTargetElement pg s (clientX e) (clientY e) true
              = inl includes_is_not_a_function).
  { unfold getTargetElement, meaningful_parent. rewrite Hhit, Hinf.
    cbn [parentElement].
    now rewrite (SessionFacts.parent_walk_throws _ _ _ _ baseVal Hb Hd Hc). }
  split; [exact T|]. split.
  - unfold handleClick. now rewrite Hsel, Hmod, T.
  - intros fresh. unfold handleMouseMove. now rewrite Hsel, Hmod, T.
Qed.

Lemma widening_throws_at_svg_parent_witness :
  handleClick Samples2.drawing_page Samples2.drawing_session
    (Samples.click_at 10 10 true)
  = (Samples2.drawing_session,
     [PreventDefault; StopPropagation;
      Uncaught includes_is_not_a_function]).
Proof.
  apply (widening_throws_at_svg_parent Samples2.drawing_page
           Samples2.drawing_session (Samples.click_at 10 10 true)
           0 Samples2.drawing_group "bars"); reflexivity.
Defined.

End SessionMore.
